(** * Currency converter: an embedding of [src/App.tsx]

    The component of [src/App.tsx] is embedded function by function.

    - A JavaScript [number] is one of [NaN], [+Infinity], [-Infinity] or a
      finite value.  Finite doubles are idealised as exact rationals kept in
      lowest terms: no rounding, no overflow, and [-0] is identified with
      [0].
    - React state is a record; a handler runs against the snapshot of the
      render that created it and queues setter calls, which are committed in
      order afterwards.
    - [fetch], [Math.random] and the clock are stubs of the environment
      ([World]); the requests issued, the messages logged and the number of
      random draws are threaded through the handlers by a small monad.
    - A [Date] is its time value in milliseconds; local time is taken at a
      constant offset from UTC (no daylight-saving transition), so that the
      local calendar is the proleptic Gregorian calendar of the time value. *)

From Stdlib Require Import ZArith QArith Qabs Qround String Ascii List Lia Lqa DecimalString.
From stdpp Require Import base option list strings gmap.

Local Open Scope string_scope.
Local Open Scope Z_scope.

(** * Numbers *)

Inductive number : Type :=
| NaN
| Infinity (negative : bool)
| Finite (q : Q).

Definition Qis_zero (q : Q) : bool := Qnum q =? 0.
Definition Qis_neg (q : Q) : bool := Qnum q <? 0.

(** A decimal literal of the source, in lowest terms. *)
Definition lit (q : Q) : number := Finite (Qred q).

Definition num_add (x y : number) : number :=
  match x, y with
  | NaN, _ | _, NaN => NaN
  | Infinity a, Infinity b => if Bool.eqb a b then Infinity a else NaN
  | Infinity a, Finite _ | Finite _, Infinity a => Infinity a
  | Finite p, Finite q => Finite (Qred (p + q))
  end.

Definition num_sub (x y : number) : number :=
  match x, y with
  | NaN, _ | _, NaN => NaN
  | Infinity a, Infinity b => if Bool.eqb a b then NaN else Infinity a
  | Infinity a, Finite _ => Infinity a
  | Finite _, Infinity b => Infinity (negb b)
  | Finite p, Finite q => Finite (Qred (p - q))
  end.

Definition num_mul (x y : number) : number :=
  match x, y with
  | NaN, _ | _, NaN => NaN
  | Infinity a, Infinity b => Infinity (xorb a b)
  | Infinity a, Finite q | Finite q, Infinity a =>
      if Qis_zero q then NaN else Infinity (xorb a (Qis_neg q))
  | Finite p, Finite q => Finite (Qred (p * q))
  end.

Definition num_div (x y : number) : number :=
  match x, y with
  | NaN, _ | _, NaN => NaN
  | Infinity _, Infinity _ => NaN
  | Infinity a, Finite q => Infinity (xorb a (Qis_neg q))
  | Finite _, Infinity _ => Finite 0
  | Finite p, Finite q =>
      if Qis_zero q then (if Qis_zero p then NaN else Infinity (Qis_neg p))
      else Finite (Qred (p / q))
  end.

(** [ToBoolean] on a number: [NaN] and zero are falsy. *)
Definition truthy (x : number) : bool :=
  match x with
  | NaN => false
  | Infinity _ => true
  | Finite q => negb (Qis_zero q)
  end.

Definition isFinite (x : number) : bool :=
  match x with Finite _ => true | _ => false end.

(** [x <= y] on numbers: false as soon as one side is [NaN]. *)
Definition num_le (x y : number) : Prop :=
  match x, y with
  | NaN, _ | _, NaN => False
  | Infinity true, _ => True
  | _, Infinity false => True
  | Infinity false, _ => False
  | _, Infinity true => False
  | Finite p, Finite q => (p <= q)%Q
  end.

(** [obj[key]] read as a number: a missing property is [undefined], which
    is falsy and [NaN] in arithmetic. *)
Definition index (obj : gmap string number) (key : string) : number :=
  default NaN (obj !! key).

(** * Static tables (lines 34-72) *)


Definition cryptoCurrencies : list string :=
  ["BTC"; "ETH"; "USDT"; "BNB"; "XRP"; "ADA"; "DOT"; "DOGE"].

Definition timeRanges : list (string * string) :=
  [("1 Week", "1w"); ("1 Month", "1m"); ("3 Months", "3m"); ("1 Year", "1y")].

(** Simulated crypto rates against USD. *)
Definition cryptoBaseRates : gmap string number :=
  list_to_map
    [("BTC", lit 45000); ("ETH", lit 3000); ("USDT", lit 1); ("BNB", lit 380);
     ("XRP", lit 0.5); ("ADA", lit 0.5); ("DOT", lit 7); ("DOGE", lit 0.08)].

(** [Array.prototype.includes] on an array of strings. *)
Definition includes (l : list string) (x : string) : bool :=
  bool_decide (x ∈ l).

(** * Component state *)

Record HistoricalPoint : Type := { date : string; rate : number }.

Record State : Type := {
  amount : string;
  fromCurrency : string;
  toCurrency : string;
  exchangeRate : number;
  customRate : string;
  useCustomRate : bool;
  historicalRates : list HistoricalPoint;
  timeRange : string;
  loading : bool;
  error : string;
  darkMode : bool
}.

(** The state of the first render (lines 75-92); [dark] is the platform's
    colour-scheme preference. *)
Definition initialState (dark : bool) : State :=
  {| amount := "1"; fromCurrency := "USD"; toCurrency := "EUR";
     exchangeRate := Finite 0; customRate := ""; useCustomRate := false;
     historicalRates := []; timeRange := "1w"; loading := false;
     error := ""; darkMode := dark |}.

(** A call of one of the state setters. *)
Inductive update : Type :=
| setAmount (v : string)
| setFromCurrency (v : string)
| setToCurrency (v : string)
| setExchangeRate (v : number)
| setCustomRate (v : string)
| setUseCustomRate (v : bool)
| setHistoricalRates (v : list HistoricalPoint)
| setTimeRange (v : string)
| setLoading (v : bool)
| setError (v : string)
| setDarkMode (v : bool).

Definition apply_update (s : State) (u : update) : State :=
  match u with
  | setAmount v =>
      {| amount := v; fromCurrency := fromCurrency s; toCurrency := toCurrency s;
         exchangeRate := exchangeRate s; customRate := customRate s;
         useCustomRate := useCustomRate s; historicalRates := historicalRates s;
         timeRange := timeRange s; loading := loading s; error := error s;
         darkMode := darkMode s |}
  | setFromCurrency v =>
      {| amount := amount s; fromCurrency := v; toCurrency := toCurrency s;
         exchangeRate := exchangeRate s; customRate := customRate s;
         useCustomRate := useCustomRate s; historicalRates := historicalRates s;
         timeRange := timeRange s; loading := loading s; error := error s;
         darkMode := darkMode s |}
  | setToCurrency v =>
      {| amount := amount s; fromCurrency := fromCurrency s; toCurrency := v;
         exchangeRate := exchangeRate s; customRate := customRate s;
         useCustomRate := useCustomRate s; historicalRates := historicalRates s;
         timeRange := timeRange s; loading := loading s; error := error s;
         darkMode := darkMode s |}
  | setExchangeRate v =>
      {| amount := amount s; fromCurrency := fromCurrency s; toCurrency := toCurrency s;
         exchangeRate := v; customRate := customRate s;
         useCustomRate := useCustomRate s; historicalRates := historicalRates s;
         timeRange := timeRange s; loading := loading s; error := error s;
         darkMode := darkMode s |}
  | setCustomRate v =>
      {| amount := amount s; fromCurrency := fromCurrency s; toCurrency := toCurrency s;
         exchangeRate := exchangeRate s; customRate := v;
         useCustomRate := useCustomRate s; historicalRates := historicalRates s;
         timeRange := timeRange s; loading := loading s; error := error s;
         darkMode := darkMode s |}
  | setUseCustomRate v =>
      {| amount := amount s; fromCurrency := fromCurrency s; toCurrency := toCurrency s;
         exchangeRate := exchangeRate s; customRate := customRate s;
         useCustomRate := v; historicalRates := historicalRates s;
         timeRange := timeRange s; loading := loading s; error := error s;
         darkMode := darkMode s |}
  | setHistoricalRates v =>
      {| amount := amount s; fromCurrency := fromCurrency s; toCurrency := toCurrency s;
         exchangeRate := exchangeRate s; customRate := customRate s;
         useCustomRate := useCustomRate s; historicalRates := v;
         timeRange := timeRange s; loading := loading s; error := error s;
         darkMode := darkMode s |}
  | setTimeRange v =>
      {| amount := amount s; fromCurrency := fromCurrency s; toCurrency := toCurrency s;
         exchangeRate := exchangeRate s; customRate := customRate s;
         useCustomRate := useCustomRate s; historicalRates := historicalRates s;
         timeRange := v; loading := loading s; error := error s;
         darkMode := darkMode s |}
  | setLoading v =>
      {| amount := amount s; fromCurrency := fromCurrency s; toCurrency := toCurrency s;
         exchangeRate := exchangeRate s; customRate := customRate s;
         useCustomRate := useCustomRate s; historicalRates := historicalRates s;
         timeRange := timeRange s; loading := v; error := error s;
         darkMode := darkMode s |}
  | setError v =>
      {| amount := amount s; fromCurrency := fromCurrency s; toCurrency := toCurrency s;
         exchangeRate := exchangeRate s; customRate := customRate s;
         useCustomRate := useCustomRate s; historicalRates := historicalRates s;
         timeRange := timeRange s; loading := loading s; error := v;
         darkMode := darkMode s |}
  | setDarkMode v =>
      {| amount := amount s; fromCurrency := fromCurrency s; toCurrency := toCurrency s;
         exchangeRate := exchangeRate s; customRate := customRate s;
         useCustomRate := useCustomRate s; historicalRates := historicalRates s;
         timeRange := timeRange s; loading := loading s; error := error s;
         darkMode := v |}
  end.

(** React applies the queued setter calls in the order they were made. *)
Definition commit (s : State) (queue : list update) : State :=
  fold_left apply_update queue s.

(** * Dates

    [Date.prototype] and the functions of [date-fns] that the component
    imports, after ECMAScript's date algorithms and the library's
    documented behaviour. *)

Definition msPerDay : Z := 86400000.
Definition Day (t : Z) : Z := t / msPerDay.
Definition TimeWithinDay (t : Z) : Z := t mod msPerDay.
Definition MakeDate (day time : Z) : Z := day * msPerDay + time.

(** Day number of the civil date [y]-[m]-[d] ([m] from 1 to 12), counted
    from 1970-01-01; years are counted from March. *)
Definition daysFromCivil (y m d : Z) : Z :=
  let y' := if m <=? 2 then y - 1 else y in
  let mp := if m <=? 2 then m + 9 else m - 3 in
  365 * y' + y' / 4 - y' / 100 + y' / 400 + (153 * mp + 2) / 5 + d - 1 - 719468.

(** Civil date (year, month from 1, day of the month) of a day number. *)
Definition civilFromDays (z : Z) : Z * Z * Z :=
  let z' := z + 719468 in
  let era := z' / 146097 in
  let doe := z' mod 146097 in
  let yoe := (doe - doe / 1460 + doe / 36524 - doe / 146096) / 365 in
  let doy := doe - (365 * yoe + yoe / 4 - yoe / 100) in
  let mp := (5 * doy + 2) / 153 in
  let d := doy - (153 * mp + 2) / 5 + 1 in
  let m := if mp <? 10 then mp + 3 else mp - 9 in
  (if m <=? 2 then yoe + era * 400 + 1 else yoe + era * 400, m, d).

Definition getFullYear (t : Z) : Z := (civilFromDays (Day t)).1.1.
(** Months are numbered from 0 in JavaScript. *)
Definition getMonth (t : Z) : Z := (civilFromDays (Day t)).1.2 - 1.
Definition getDate (t : Z) : Z := (civilFromDays (Day t)).2.

(** [MakeDay]: the month and the day of the month may lie out of range and
    carry into the year and the month. *)
Definition MakeDay (year month dt : Z) : Z :=
  let ym := year + month / 12 in
  let mn := month mod 12 in
  daysFromCivil ym (mn + 1) 1 + dt - 1.

Definition setDate (t dt : Z) : Z :=
  MakeDate (MakeDay (getFullYear t) (getMonth t) dt) (TimeWithinDay t).
Definition setMonth (t month dt : Z) : Z :=
  MakeDate (MakeDay (getFullYear t) month dt) (TimeWithinDay t).
Definition setFullYear (t year month dt : Z) : Z :=
  MakeDate (MakeDay year month dt) (TimeWithinDay t).

Definition addDays (d amount : Z) : Z :=
  if amount =? 0 then d else setDate d (getDate d + amount).
Definition subDays (d amount : Z) : Z := addDays d (- amount).

(** [addMonths] keeps the day of the month unless the desired month is
    shorter, in which case it returns the last day of that month. *)
Definition addMonths (d amount : Z) : Z :=
  if amount =? 0 then d
  else
    let dayOfMonth := getDate d in
    let endOfDesiredMonth := setMonth d (getMonth d + amount + 1) 0 in
    let daysInMonth := getDate endOfDesiredMonth in
    if dayOfMonth >=? daysInMonth then endOfDesiredMonth
    else setFullYear d (getFullYear endOfDesiredMonth)
                     (getMonth endOfDesiredMonth) dayOfMonth.
Definition subMonths (d amount : Z) : Z := addMonths d (- amount).
Definition addYears (d amount : Z) : Z := addMonths d (amount * 12).
Definition subYears (d amount : Z) : Z := addYears d (- amount).

Definition decimal (n : Z) : string :=
  NilZero.string_of_uint (N.to_uint (Z.to_N n)).

Fixpoint zeros (n : nat) : string :=
  match n with O => "" | S n' => String "0" (zeros n') end.

Definition padStart (s : string) (targetLength : nat) : string :=
  zeros (targetLength - String.length s) ++ s.

Definition addLeadingZeros (n : Z) (targetLength : nat) : string :=
  (if n <? 0 then "-" else "") ++ padStart (decimal (Z.abs n)) targetLength.

(** [format(d, "yyyy-MM-dd")]. *)
Definition format (d : Z) : string :=
  let signedYear := getFullYear d in
  let year := if signedYear >? 0 then signedYear else 1 - signedYear in
  addLeadingZeros year 4 ++ "-" ++ addLeadingZeros (getMonth d + 1) 2
    ++ "-" ++ addLeadingZeros (getDate d) 2.

(** * [parseFloat] and [Number.prototype.toFixed] *)

(** White space and line terminators of the ASCII range. *)
Definition isWhiteSpace (c : ascii) : bool :=
  let n := N_of_ascii c in
  ((9 <=? n) && (n <=? 13) || (n =? 32))%N.

Fixpoint trimStart (s : string) : string :=
  match s with
  | String c r => if isWhiteSpace c then trimStart r else s
  | EmptyString => s
  end.

Definition digitValue (c : ascii) : option Z :=
  let n := Z.of_N (N_of_ascii c) in
  if (48 <=? n) && (n <=? 57) then Some (n - 48) else None.

(** The longest run of decimal digits at the head of [s], and what follows. *)
Fixpoint takeDigits (s : string) : list Z * string :=
  match s with
  | String c r =>
      match digitValue c with
      | Some d => let '(ds, rest) := takeDigits r in (d :: ds, rest)
      | None => ([], s)
      end
  | EmptyString => ([], s)
  end.

Definition digitsValue (ds : list Z) : Z :=
  fold_left (fun acc d => 10 * acc + d) ds 0.

Fixpoint startsWith (s p : string) : bool :=
  match p, s with
  | EmptyString, _ => true
  | String a p', String b s' => Ascii.eqb a b && startsWith s' p'
  | String _ _, EmptyString => false
  end.

(** The exponent part at the head of [s], if there is a complete one. *)
Definition exponentPart (s : string) : Z :=
  match s with
  | String c r =>
      if Ascii.eqb c "e" || Ascii.eqb c "E" then
        let '(negative, r') :=
          match r with
          | String "-" r' => (true, r')
          | String "+" r' => (false, r')
          | _ => (false, r)
          end in
        let '(ds, _) := takeDigits r' in
        match ds with
        | [] => 0
        | _ => if negative : bool then - digitsValue ds else digitsValue ds
        end
      else 0
  | EmptyString => 0
  end.

(** The value of the longest prefix of [s] that is a
    [StrUnsignedDecimalLiteral], if there is one. *)
Definition unsignedDecimalLiteral (s : string) : option number :=
  if startsWith s "Infinity" then Some (Infinity false)
  else
    let '(ip, r1) := takeDigits s in
    let '(fp, r2) :=
      match r1 with
      | String "." r => takeDigits r
      | _ => ([], r1)
      end in
    match ip, fp with
    | [], [] => None
    | _, _ =>
        let e := exponentPart r2 in
        Some (Finite (Qred (inject_Z (digitsValue (ip ++ fp))
                            * 10 ^ (e - Z.of_nat (length fp)))))
    end.

Definition parseFloat (s : string) : number :=
  let t := trimStart s in
  let '(negative, u) :=
    match t with
    | String "-" r => (true, r)
    | String "+" r => (false, r)
    | _ => (false, t)
    end in
  match unsignedDecimalLiteral u with
  | None => NaN
  | Some v => if negative : bool then num_sub (Finite 0) v else v
  end.

Section ToFixed.

(** [Number::toString] on a finite value of at least [10^21], which prints
    the shortest digits that identify the double in exponent notation; the
    idealised rationals do not determine it, so that it is left to the
    host. *)
Variable exponential : Q -> string.

Definition toFixed (x : number) (fractionDigits : nat) : string :=
  match x with
  | NaN => "NaN"
  | Infinity negative => if negative then "-Infinity" else "Infinity"
  | Finite q =>
      let f := fractionDigits in
      let s := if Qis_neg q then "-" else "" in
      let x := Qabs q in
      let m :=
        if Qle_bool (10 ^ 21) x then exponential x
        else
          let n := Qfloor (x * 10 ^ Z.of_nat f + (1 # 2)) in
          let m := decimal n in
          match f with
          | O => m
          | _ =>
              let m := padStart m (S f) in
              let k := String.length m in
              substring 0 (k - f) m ++ "." ++ substring (k - f) f m
          end in
      s ++ m
  end.

End ToFixed.

(** * The environment and the effects of a handler *)

Inductive exn : Type :=
| Error (message : string)   (* [new Error(message)], thrown by the component *)
| TypeError                  (* a rejected [fetch], a property read on [undefined] *)
| SyntaxError.               (* [response.json()] on a body that is not JSON *)

(** The parsed body of a response: [rates] is absent or an object of
    numbers by currency code. *)
Inductive Body : Type :=
| Malformed
| Json (rates : option (gmap string number)).

Record Response : Type := { ok : bool; body : Body }.

Record World : Type := {
  fetch : string -> option Response;   (* [None]: the promise rejects *)
  clock : Z;                           (* the time value of [new Date()] *)
  random : nat -> Q                    (* the successive values of [Math.random()] *)
}.

Record Effects : Type := {
  requests : list string;         (* URLs requested so far *)
  console : list (string * exn);  (* [console.error] calls *)
  queue : list update;            (* setter calls, oldest first *)
  draws : nat                     (* calls of [Math.random()] so far *)
}.

Definition no_effects : Effects :=
  {| requests := []; console := []; queue := []; draws := 0 |}.

Inductive result (A : Type) : Type :=
| Ok (a : A)
| Throw (e : exn)
| Diverge.
Arguments Ok {A} a.
Arguments Throw {A} e.
Arguments Diverge {A}.

Definition M (A : Type) : Type := Effects -> Effects * result A.

Definition ret {A} (a : A) : M A := fun e => (e, Ok a).

Definition bind {A B} (m : M A) (k : A -> M B) : M B :=
  fun e =>
    match m e with
    | (e', Ok a) => k a e'
    | (e', Throw x) => (e', Throw x)
    | (e', Diverge) => (e', Diverge)
    end.

Notation "x <- m ;; k" := (bind m (fun x => k))
  (at level 100, m at next level, right associativity).
Notation "m ;; k" := (bind m (fun _ => k))
  (at level 100, right associativity).

Definition throw {A} (x : exn) : M A := fun e => (e, Throw x).
Definition diverge {A} : M A := fun e => (e, Diverge).

(** [try { m } catch (error) { handler error }] *)
Definition try_catch {A} (m : M A) (handler : exn -> M A) : M A :=
  fun e =>
    match m e with
    | (e', Throw x) => handler x e'
    | r => r
    end.

(** A setter call is queued. *)
Definition call (u : update) : M unit :=
  fun e =>
    ({| requests := requests e; console := console e;
        queue := (queue e ++ [u])%list; draws := draws e |}, Ok tt).

Definition console_error (label : string) (x : exn) : M unit :=
  fun e =>
    ({| requests := requests e; console := (console e ++ [(label, x)])%list;
        queue := queue e; draws := draws e |}, Ok tt).

Fixpoint mapM {A B} (f : A -> M B) (l : list A) : M (list B) :=
  match l with
  | [] => ret []
  | x :: l' => y <- f x;; ys <- mapM f l';; ret (y :: ys)
  end.

Section Component.

Variable w : World.

Definition await_fetch (url : string) : M Response :=
  fun e =>
    ({| requests := (requests e ++ [url])%list; console := console e;
        queue := queue e; draws := draws e |},
     match fetch w url with
     | Some response => Ok response
     | None => Throw TypeError
     end).

(** [await response.json()] *)
Definition await_json (response : Response) : M (option (gmap string number)) :=
  match body response with
  | Malformed => throw SyntaxError
  | Json rates => ret rates
  end.

(** [data.rates[key]] *)
Definition rates_index (rates : option (gmap string number)) (key : string)
  : M number :=
  match rates with
  | None => throw TypeError
  | Some obj => ret (index obj key)
  end.

Definition new_Date : M Z := fun e => (e, Ok (clock w)).

Definition Math_random : M number :=
  fun e =>
    ({| requests := requests e; console := console e; queue := queue e;
        draws := S (draws e) |}, Ok (Finite (random w (draws e)))).

(** ** [getDateRange] (lines 94-106) *)
Definition getDateRange (s : State) : M Z :=
  today <- new_Date;;
  if String.eqb (timeRange s) "1m" then ret (subMonths today 1)
  else if String.eqb (timeRange s) "3m" then ret (subMonths today 3)
  else if String.eqb (timeRange s) "1y" then ret (subYears today 1)
  else ret (subDays today 7).

(** ** [calculateCryptoRate] (lines 108-122) *)
Definition calculateCryptoRate (from to : string) : number :=
  if includes cryptoCurrencies from && includes cryptoCurrencies to then
    num_div (index cryptoBaseRates from) (index cryptoBaseRates to)
  else if includes cryptoCurrencies from then
    index cryptoBaseRates from
  else if includes cryptoCurrencies to then
    num_div (lit 1) (index cryptoBaseRates to)
  else lit 0.

(** ** [fetchHistoricalRates] (lines 124-148) *)

(** The [while] loop of lines 129-132; [fuel] bounds the iterations. *)
Fixpoint datesLoop (fuel : nat) (currentDate : Z) : M (list string) :=
  match fuel with
  | O => diverge
  | S fuel' =>
      now <- new_Date;;
      if currentDate <=? now then
        let pushed := format currentDate in
        rest <- datesLoop fuel' (setDate currentDate (getDate currentDate + 1));;
        ret (pushed :: rest)
      else ret []
  end.

Definition volatility (s : State) : number :=
  if includes cryptoCurrencies (fromCurrency s)
     || includes cryptoCurrencies (toCurrency s)
  then lit 0.15 else lit 0.05.

Definition simulatedRate (baseRate vol r : number) : number :=
  num_mul baseRate
    (num_add (lit 1) (num_sub (num_mul (num_mul r vol) (lit 2)) vol)).

Definition fetchHistoricalRates (fuel : nat) (s : State) : M unit :=
  startDate <- getDateRange s;;
  dates <- datesLoop fuel startDate;;
  let baseRate := exchangeRate s in
  let vol := volatility s in
  historical <-
    mapM (fun d => r <- Math_random;;
                   ret {| date := d; rate := simulatedRate baseRate vol r |})
         dates;;
  call (setHistoricalRates historical).

(** ** [fetchExchangeRate] (lines 150-185) *)

(** Lines 154-176: the value of [rate] when [setExchangeRate] is reached. *)
Definition resolveRate (s : State) : M number :=
  if includes cryptoCurrencies (fromCurrency s)
     || includes cryptoCurrencies (toCurrency s)
  then ret (calculateCryptoRate (fromCurrency s) (toCurrency s))
  else
    response <-
      await_fetch ("https://api.exchangerate-api.com/v4/latest/"
                     ++ fromCurrency s);;
    if negb (ok response) then throw (Error "Failed to fetch exchange rate")
    else
      data <- await_json response;;
      rate <- rates_index data (toCurrency s);;
      if negb (truthy rate) then
        throw (Error ("No exchange rate available for " ++ fromCurrency s
                        ++ " to " ++ toCurrency s))
      else ret rate.

Definition fetchExchangeRate (fuel : nat) (s : State) : M unit :=
  call (setLoading true);;
  call (setError "");;
  try_catch
    (rate <- resolveRate s;;
     call (setExchangeRate rate);;
     fetchHistoricalRates fuel s)
    (fun x =>
       console_error "Error fetching exchange rate:" x;;
       call (setError "Failed to fetch exchange rate. Please try again later."));;
  call (setLoading false).

(** ** [handleSwapCurrencies] (lines 191-194) *)
Definition handleSwapCurrencies (s : State) : M unit :=
  call (setFromCurrency (toCurrency s));;
  call (setToCurrency (fromCurrency s)).

(** The state once a handler started on the snapshot [s] has finished:
    the setter calls it made are committed; a handler that does not
    finish commits nothing. *)
Definition after (handler : State -> M unit) (s : State) : option State :=
  match handler s no_effects with
  | (_, Diverge) => None
  | (e, _) => Some (commit s (queue e))
  end.

End Component.

(** * Rendering (lines 196 and 444-459) *)

Definition effectiveRate (s : State) : number :=
  if useCustomRate s then parseFloat (customRate s) else exchangeRate s.

Section Render.

Variable exponential : Q -> string.

(** The text of the conversion line (lines 445-454). *)
Definition conversionLine (s : State) : string :=
  if truthy (parseFloat (amount s)) then
    amount s ++ " " ++ fromCurrency s ++ " = "
      ++ toFixed exponential (num_mul (parseFloat (amount s)) (effectiveRate s)) 2
      ++ " " ++ toCurrency s
  else "Please enter a valid amount".

(** The text of the unit rate line (lines 455-458). *)
Definition unitRateLine (s : State) : string :=
  "1 " ++ fromCurrency s ++ " = " ++ toFixed exponential (effectiveRate s) 4
    ++ " " ++ toCurrency s
    ++ (if useCustomRate s then " (Custom Rate)" else "").

End Render.

(** The error banner (lines 288-292) is rendered when [error] is not empty. *)
Definition errorBanner (s : State) : option string :=
  if String.eqb (error s) "" then None else Some (error s).

(** * The chart (lines 198-249) *)




(** The text of the title in [chartOptions] (line 227). *)
Definition chartTitle (s : State) : string :=
  (if String.eqb (timeRange s) "1w" then "7-Day"
   else if String.eqb (timeRange s) "1m" then "1-Month"
   else if String.eqb (timeRange s) "3m" then "3-Month"
   else "1-Year") ++ " Exchange Rate History".

(** * Events

    The handlers that the markup attaches to the inputs, and the effect of
    lines 187-189 that starts a resolve cycle. *)

Definition onAmountChange (value : string) (s : State) : M unit :=
  call (setAmount value).                               (* line 302 *)
Definition onCustomRateChange (value : string) (s : State) : M unit :=
  call (setCustomRate value).                           (* line 397 *)
Definition onCustomRateToggle (s : State) : M unit :=
  call (setUseCustomRate (negb (useCustomRate s))).     (* line 408 *)
Definition onDarkModeToggle (s : State) : M unit :=
  call (setDarkMode (negb (darkMode s))).               (* line 273 *)


(** The dependencies of the effect (line 189). *)
Definition effectDeps (s : State) : list string :=
  [fromCurrency s; toCurrency s; timeRange s].

(** React runs an effect again when a dependency of the new render differs
    from that of the previous one. *)
Definition depsChanged (prev next : State) : bool :=
  negb (bool_decide (effectDeps prev = effectDeps next)).

(** The effects so far, with the queue of setter calls emptied by a
    commit. *)
Definition flush (e : Effects) : Effects :=
  {| requests := requests e; console := console e; queue := [];
     draws := draws e |}.

(** A handler runs on the snapshot [s] and its setter calls are committed;
    [None] when it does not finish. *)
Definition runHandler (handler : State -> M unit) (s : State) (e : Effects)
  : option (State * Effects) :=
  match handler s (flush e) with
  | (_, Diverge) => None
  | (e', _) => Some (commit s (queue e'), flush e')
  end.

(** An event: its handler runs, and when the render that follows has other
    dependencies the effect runs [fetchExchangeRate] on that render. *)
Definition dispatch (w : World) (fuel : nat) (handler : State -> M unit)
    (s : State) (e : Effects) : option (State * Effects) :=
  match runHandler handler s e with
  | None => None
  | Some (s1, e1) =>
      if depsChanged s s1 then runHandler (fetchExchangeRate w fuel) s1 e1
      else Some (s1, e1)
  end.

(** The first render: the effect runs once on the initial state. *)
Definition mount (w : World) (fuel : nat) (dark : bool)
  : option (State * Effects) :=
  runHandler (fetchExchangeRate w fuel) (initialState dark) no_effects.

(** * Definitions used by the statements *)

(** ** Names for values of the source *)

(** The two errors that the resolver throws itself. *)
Definition FetchError : exn := Error "Failed to fetch exchange rate".
Definition RateUnavailableError (from to : string) : exn :=
  Error ("No exchange rate available for " ++ from ++ " to " ++ to).

(** The message of the error banner (line 182). *)
Definition failureMessage : string :=
  "Failed to fetch exchange rate. Please try again later.".

(** The URL requested for a source symbol (line 163). *)
Definition rateUrl (from : string) : string :=
  "https://api.exchangerate-api.com/v4/latest/" ++ from.

(** The effects [e] and one more request. *)
Definition with_request (e : Effects) (url : string) : Effects :=
  {| requests := (requests e ++ [url])%list; console := console e;
     queue := queue e; draws := draws e |}.

(** The resolver throws, whatever it throws. *)
Definition resolve_fails (w : World) (s : State) : Prop :=
  exists x : exn, (resolveRate w s no_effects).2 = Throw x.

(** The start of the range, as [getDateRange] computes it from the clock. *)
Definition rangeStart (today : Z) (range : string) : Z :=
  if String.eqb range "1m" then subMonths today 1
  else if String.eqb range "3m" then subMonths today 3
  else if String.eqb range "1y" then subYears today 1
  else subDays today 7.

(** The first day of the month numbered [n] from January of year 0. *)
Definition monthStart (n : Z) : Z := MakeDay 0 n 1.

(** The dates of the series: one per day from the day of the range start to
    the day of the clock. *)
Definition seriesDates (w : World) (s : State) : list string :=
  let start := rangeStart (clock w) (timeRange s) in
  map (fun day => format (MakeDate day 0))
      (seqZ (Day start) (Day (clock w) - Day start + 1)).

(** The points simulated for a list of dates, the first one from the
    [k]-th random draw. *)
Definition simulate (w : World) (s : State) (k : nat) (dates : list string)
  : list HistoricalPoint :=
  imap (fun i d =>
          {| date := d;
             rate := simulatedRate (exchangeRate s) (volatility s)
                                   (Finite (random w (k + i))) |})
       dates.

(** ** The specification's wording *)

(** The effective rate as the specification words it: the override when it
    is enabled and parses as a finite number, the resolved quote otherwise. *)
Definition spec_effectiveRate (s : State) : number :=
  if useCustomRate s && isFinite (parseFloat (customRate s))
  then parseFloat (customRate s)
  else exchangeRate s.

(** [x] lies between [a] and [b], whichever of the two is the smaller. *)
Definition between (a b x : number) : Prop :=
  (num_le a x /\ num_le x b) \/ (num_le b x /\ num_le x a).

(** The interval [base * (1 - vol)] to [base * (1 + vol)]. *)
Definition lowerRate (base vol : number) : number :=
  num_mul base (num_sub (lit 1) vol).
Definition upperRate (base vol : number) : number :=
  num_mul base (num_add (lit 1) vol).

(** [s] contains [p] as a substring. *)
Fixpoint containsString (s p : string) : bool :=
  startsWith s p
  || match s with
     | String _ r => containsString r p
     | EmptyString => false
     end.

(** ** Stubbed worlds and states for the examples *)

(** A world without network: every request is rejected. *)
Definition offline (now : Z) : World :=
  {| fetch := fun _ => None; clock := now; random := fun _ => 1 # 2 |}.

(** A stubbed API that answers every request with the given status and
    rates. *)
Definition stub_api (status : bool) (l : list (string * number)) : World :=
  {| fetch := fun _ => Some {| ok := status; body := Json (Some (list_to_map l)) |};
     clock := 0; random := fun _ => 1 # 2 |}.

(** A clock at 01:00 on 2024-03-31. *)
Definition march_31 : World :=
  {| fetch := fun _ => None; clock := MakeDate 19813 3600000;
     random := fun _ => 1 # 2 |}.

(** The same clock, with a random source that alternates between its two
    extremes. *)
Definition extremes : World :=
  {| fetch := fun _ => None; clock := MakeDate 19813 3600000;
     random := fun i => if Nat.even i then 0%Q else (999 # 1000)%Q |}.

(** A page converting 100 [from] to [to], with a stored quote of 0.9. *)
Definition sample_state (from to : string) : State :=
  {| amount := "100"; fromCurrency := from; toCurrency := to;
     exchangeRate := Finite (9 # 10); customRate := ""; useCustomRate := false;
     historicalRates := []; timeRange := "1w"; loading := false;
     error := ""; darkMode := false |}.

(** A page on USD to EUR with the override enabled. *)
Definition override_state (quote : number) (custom : string) : State :=
  {| amount := "100"; fromCurrency := "USD"; toCurrency := "EUR";
     exchangeRate := quote; customRate := custom; useCustomRate := true;
     historicalRates := []; timeRange := "1w"; loading := false;
     error := ""; darkMode := false |}.

(** A page on USD to EUR that asks for the range [range]. *)
Definition range_state (range : string) : State :=
  {| amount := "1"; fromCurrency := "USD"; toCurrency := "EUR";
     exchangeRate := Finite (9 # 10); customRate := ""; useCustomRate := false;
     historicalRates := []; timeRange := range; loading := false;
     error := ""; darkMode := false |}.

(** A page on USD to EUR with the amount field holding [text]. *)
Definition amount_state (text : string) (quote : number) : State :=
  {| amount := text; fromCurrency := "USD"; toCurrency := "EUR";
     exchangeRate := quote; customRate := ""; useCustomRate := false;
     historicalRates := []; timeRange := "1w"; loading := false;
     error := ""; darkMode := false |}.

(** ** Events and their outcomes *)

(** The state with the pair exchanged. *)
Definition swapped (s : State) : State :=
  commit s [setFromCurrency (toCurrency s); setToCurrency (fromCurrency s)].



(** ** Calendar quantities *)

(** The month of a time value, numbered from January of year 0. *)
Definition monthIndex (t : Z) : Z := 12 * getFullYear t + getMonth t.

(** The number of days of the month numbered [n]. *)
Definition monthLength (n : Z) : Z := monthStart (n + 1) - monthStart n.

(** * Properties *)

(** ** The built-ins on examples *)

Example format_epoch : format 0 = "1970-01-01".
Proof. reflexivity. Qed.

Example format_leap_day : format (MakeDate 19782 3600000) = "2024-02-29".
Proof. reflexivity. Qed.

Example subMonths_clamps :
  format (subMonths (MakeDate 19813 0) 1) = "2024-02-29"
  /\ format (MakeDate 19813 0) = "2024-03-31"
  /\ format (subYears (MakeDate 19782 0) 1) = "2023-02-28".
Proof. repeat split; reflexivity. Qed.

Example parseFloat_examples :
  parseFloat "100" = Finite 100 /\ parseFloat "0.9" = Finite (9 # 10)
  /\ parseFloat "  -2.50e1xyz" = Finite (-25) /\ parseFloat "5." = Finite 5
  /\ parseFloat ".5" = Finite (1 # 2) /\ parseFloat "1e" = Finite 1
  /\ parseFloat "abc" = NaN /\ parseFloat "" = NaN /\ parseFloat "." = NaN
  /\ parseFloat "-" = NaN /\ parseFloat "e5" = NaN
  /\ parseFloat "-Infinity" = Infinity true /\ parseFloat "0" = Finite 0
  /\ parseFloat "-0.00" = Finite 0 /\ parseFloat "1.2.3" = Finite (6 # 5).
Proof. repeat split; reflexivity. Qed.

Example toFixed_examples (e : Q -> string) :
  toFixed e (Finite 90) 2 = "90.00" /\ toFixed e (Finite (9 # 10)) 4 = "0.9000"
  /\ toFixed e (Finite (1125 # 1000)) 2 = "1.13"
  /\ toFixed e (Finite (-1 # 1000)) 2 = "-0.00"
  /\ toFixed e (Finite (123456 # 100)) 0 = "1235" /\ toFixed e NaN 2 = "NaN"
  /\ toFixed e (Finite (1 # 3)) 4 = "0.3333"
  /\ toFixed e (Finite (-25 # 2)) 0 = "-13".
Proof. repeat split; reflexivity. Qed.

(** ** Membership in the currency tables *)

Lemma includes_true (l : list string) (x : string) :
  x ∈ l -> includes l x = true.
Proof. intros H. unfold includes. by apply bool_decide_eq_true_2. Qed.

Lemma includes_false (l : list string) (x : string) :
  x ∉ l -> includes l x = false.
Proof. intros H. unfold includes. by apply bool_decide_eq_false_2. Qed.


Lemma crypto_cases (P : string -> Prop) :
  P "BTC" -> P "ETH" -> P "USDT" -> P "BNB" -> P "XRP" -> P "ADA" -> P "DOT" ->
  P "DOGE" -> forall c, c ∈ cryptoCurrencies -> P c.
Proof.
  intros; unfold cryptoCurrencies in *.
  repeat match goal with
         | H : _ ∈ _ :: _ |- _ => apply elem_of_cons in H as [->|H]; [assumption|]
         end.
  match goal with H : _ ∈ [] |- _ => by apply elem_of_nil in H end.
Qed.

(** Every entry of the crypto table is a finite number other than zero. *)
Lemma cryptoBaseRates_finite (c : string) :
  c ∈ cryptoCurrencies ->
  exists q, index cryptoBaseRates c = Finite q /\ ~ (q == 0)%Q /\ Qred q = q.
Proof.
  revert c. apply crypto_cases; eexists;
    (split; [vm_compute; reflexivity|]);
    (split; [intros H; vm_compute in H; discriminate H | reflexivity]).
Qed.

(** ** The rate resolver *)

Lemma resolveRate_crypto (w : World) (s : State) (e : Effects) :
  includes cryptoCurrencies (fromCurrency s)
    || includes cryptoCurrencies (toCurrency s) = true ->
  resolveRate w s e = (e, Ok (calculateCryptoRate (fromCurrency s) (toCurrency s))).
Proof. intros H. unfold resolveRate. rewrite H. reflexivity. Qed.

(** C1: a pair of two crypto symbols resolves to [baseRate[from] /
    baseRate[to]] without any request; BTC to ETH resolves to 15 and a
    crypto symbol to itself resolves to 1. *)
Theorem crypto_pair_rate :
  (forall (w : World) (s : State) (e : Effects),
      fromCurrency s ∈ cryptoCurrencies -> toCurrency s ∈ cryptoCurrencies ->
      resolveRate w s e
      = (e, Ok (num_div (index cryptoBaseRates (fromCurrency s))
                        (index cryptoBaseRates (toCurrency s)))))
  /\ (forall (w : World) (s : State) (e : Effects),
         fromCurrency s = "BTC" -> toCurrency s = "ETH" ->
         index cryptoBaseRates "BTC" = Finite 45000
         /\ index cryptoBaseRates "ETH" = Finite 3000
         /\ resolveRate w s e = (e, Ok (Finite 15)))
  /\ (forall (w : World) (s : State) (e : Effects) (c : string),
         c ∈ cryptoCurrencies -> fromCurrency s = c -> toCurrency s = c ->
         resolveRate w s e = (e, Ok (Finite 1))).
Proof.
  assert (Hpair : forall (w : World) (s : State) (e : Effects),
             fromCurrency s ∈ cryptoCurrencies -> toCurrency s ∈ cryptoCurrencies ->
             resolveRate w s e
             = (e, Ok (num_div (index cryptoBaseRates (fromCurrency s))
                               (index cryptoBaseRates (toCurrency s))))).
  { intros w s e Hf Ht. rewrite resolveRate_crypto.
    - unfold calculateCryptoRate.
      by rewrite (includes_true _ _ Hf), (includes_true _ _ Ht).
    - by rewrite (includes_true _ _ Hf). }
  split; [exact Hpair|split].
  - intros w s e Hf Ht. repeat split; [reflexivity..|].
    rewrite Hpair, Hf, Ht; [reflexivity|..].
    + rewrite Hf. compute_done.
    + rewrite Ht. compute_done.
  - intros w s e c Hc Hf Ht.
    rewrite Hpair, Hf, Ht by congruence.
    do 2 f_equal. clear -Hc. revert c Hc. apply crypto_cases; reflexivity.
Qed.

Lemma crypto_pair_rate_witness :
  resolveRate (offline 0) (sample_state "DOGE" "XRP") no_effects
  = (no_effects, Ok (Finite (4 # 25)))
  /\ resolveRate (offline 0) (sample_state "BTC" "ETH") no_effects
     = (no_effects, Ok (Finite 15))
  /\ resolveRate (offline 0) (sample_state "DOGE" "DOGE") no_effects
     = (no_effects, Ok (Finite 1)).
Proof.
  destruct crypto_pair_rate as (H1 & H2 & H3). split; [|split].
  - rewrite (H1 (offline 0) (sample_state "DOGE" "XRP") no_effects);
      [reflexivity | compute_done | compute_done].
  - apply (H2 (offline 0) (sample_state "BTC" "ETH") no_effects); reflexivity.
  - apply (H3 (offline 0) (sample_state "DOGE" "DOGE") no_effects "DOGE");
      [compute_done | reflexivity | reflexivity].
Defined.

(** C2: with exactly one crypto leg no request is issued; a crypto source
    resolves to [baseRate[from]] and a crypto target to
    [1 / baseRate[to]]. *)
Theorem single_crypto_leg_rate (w : World) (s : State) (e : Effects) :
  (fromCurrency s ∈ cryptoCurrencies -> toCurrency s ∉ cryptoCurrencies ->
   resolveRate w s e = (e, Ok (index cryptoBaseRates (fromCurrency s))))
  /\ (fromCurrency s ∉ cryptoCurrencies -> toCurrency s ∈ cryptoCurrencies ->
      resolveRate w s e
      = (e, Ok (num_div (Finite 1) (index cryptoBaseRates (toCurrency s))))).
Proof.
  split; intros Hf Ht.
  - rewrite resolveRate_crypto by (by rewrite (includes_true _ _ Hf)).
    unfold calculateCryptoRate.
    by rewrite (includes_true _ _ Hf), (includes_false _ _ Ht).
  - rewrite resolveRate_crypto
      by (by rewrite (includes_true _ _ Ht), orb_true_r).
    unfold calculateCryptoRate.
    by rewrite (includes_false _ _ Hf), (includes_true _ _ Ht).
Qed.

Lemma single_crypto_leg_rate_witness :
  resolveRate (offline 0) (sample_state "BTC" "USD") no_effects
  = (no_effects, Ok (Finite 45000))
  /\ resolveRate (offline 0) (sample_state "INR" "DOGE") no_effects
     = (no_effects, Ok (Finite (25 # 2))).
Proof.
  split.
  - apply (proj1 (single_crypto_leg_rate (offline 0) (sample_state "BTC" "USD")
                                         no_effects)); compute_done.
  - apply (proj2 (single_crypto_leg_rate (offline 0) (sample_state "INR" "DOGE")
                                         no_effects)); compute_done.
Defined.

Lemma resolveRate_fiat (w : World) (s : State) (e : Effects) :
  fromCurrency s ∉ cryptoCurrencies -> toCurrency s ∉ cryptoCurrencies ->
  resolveRate w s e
  = (with_request e (rateUrl (fromCurrency s)),
     match fetch w (rateUrl (fromCurrency s)) with
     | None => Throw TypeError
     | Some response =>
         if ok response then
           match body response with
           | Malformed => Throw SyntaxError
           | Json None => Throw TypeError
           | Json (Some rates) =>
               if truthy (index rates (toCurrency s))
               then Ok (index rates (toCurrency s))
               else Throw (RateUnavailableError (fromCurrency s) (toCurrency s))
           end
         else Throw FetchError
     end).
Proof.
  intros Hf Ht. unfold resolveRate.
  rewrite (includes_false _ _ Hf), (includes_false _ _ Ht). simpl.
  unfold bind, await_fetch, with_request, rateUrl.
  destruct (fetch w _) as [response|]; [|reflexivity].
  destruct (ok response); simpl; [|reflexivity].
  unfold await_json. destruct (body response) as [|[rates|]]; simpl; try reflexivity.
  destruct (truthy (index rates (toCurrency s))); reflexivity.
Qed.



(** ** Swapping the pair *)

(** C8: the swap handler reads both symbols from the snapshot of its render,
    so that the committed state has them exchanged; swapping twice gives
    back the state. *)
Theorem swap_exchanges (s : State) :
  exists s' : State,
    after handleSwapCurrencies s = Some s'
    /\ fromCurrency s' = toCurrency s
    /\ toCurrency s' = fromCurrency s
    /\ after handleSwapCurrencies s' = Some s.
Proof.
  eexists. split; [reflexivity|]. destruct s; repeat split; reflexivity.
Qed.

Example swap_usd_eur :
  after handleSwapCurrencies (sample_state "USD" "EUR")
  = Some (sample_state "EUR" "USD").
Proof. reflexivity. Qed.

(** ** The effective rate *)

(** With the override enabled and left empty the effective rate is [NaN],
    not the resolved quote. *)
Lemma effectiveRate_empty_override :
  effectiveRate (override_state (Finite (9 # 10)) "") = NaN
  /\ spec_effectiveRate (override_state (Finite (9 # 10)) "") = Finite (9 # 10)
  /\ effectiveRate (override_state (Finite (9 # 10)) "")
     <> spec_effectiveRate (override_state (Finite (9 # 10)) "").
Proof. repeat split; try reflexivity. discriminate. Qed.

(** [NaN] is then what both lines display. *)
Example empty_override_display (e : Q -> string) :
  conversionLine e (override_state (Finite (9 # 10)) "") = "100 USD = NaN EUR"
  /\ unitRateLine e (override_state (Finite (9 # 10)) "")
     = "1 USD = NaN EUR (Custom Rate)".
Proof. split; reflexivity. Qed.

(** C4 (amended): the effective rate is the parsed override whenever the
    override is enabled, whatever it parses to, and the resolved quote when
    it is disabled; it agrees with the specification's wording when the
    override is disabled or parses as a finite number. *)
Theorem effectiveRate_override (s : State) :
  (useCustomRate s = true -> effectiveRate s = parseFloat (customRate s))
  /\ (useCustomRate s = false -> effectiveRate s = exchangeRate s)
  /\ (useCustomRate s = true -> parseFloat (customRate s) = NaN ->
      effectiveRate s = NaN)
  /\ (useCustomRate s = false \/ isFinite (parseFloat (customRate s)) = true ->
      effectiveRate s = spec_effectiveRate s).
Proof.
  unfold effectiveRate, spec_effectiveRate.
  split; [|split; [|split]].
  - by intros ->.
  - by intros ->.
  - by intros -> ->.
  - intros [-> | ->]; [reflexivity|]. by destruct (useCustomRate s).
Qed.

Lemma effectiveRate_override_witness :
  effectiveRate (override_state (Finite (9 # 10)) "1.25") = Finite (5 # 4)
  /\ effectiveRate (override_state (Finite (9 # 10)) "abc") = NaN
  /\ effectiveRate (sample_state "USD" "EUR") = Finite (9 # 10)
  /\ effectiveRate (override_state (Finite (9 # 10)) "1.25")
     = spec_effectiveRate (override_state (Finite (9 # 10)) "1.25").
Proof.
  split; [|split; [|split]].
  - destruct (effectiveRate_override (override_state (Finite (9 # 10)) "1.25"))
      as (H & _). exact (H eq_refl).
  - destruct (effectiveRate_override (override_state (Finite (9 # 10)) "abc"))
      as (_ & _ & H & _). exact (H eq_refl eq_refl).
  - destruct (effectiveRate_override (sample_state "USD" "EUR"))
      as (_ & H & _). exact (H eq_refl).
  - destruct (effectiveRate_override (override_state (Finite (9 # 10)) "1.25"))
      as (_ & _ & _ & H). exact (H (or_intror eq_refl)).
Defined.

(** ** A failed resolve cycle *)

(** The resolver only adds to the list of requests, and its outcome does
    not depend on the effects so far. *)
Lemma resolveRate_frame (w : World) (s : State) (e : Effects) :
  resolveRate w s e
  = ({| requests := (requests e ++ requests (resolveRate w s no_effects).1)%list;
        console := console e; queue := queue e; draws := draws e |},
     (resolveRate w s no_effects).2).
Proof.
  destruct (decide (fromCurrency s ∈ cryptoCurrencies)) as [Hf|Hf];
    [|destruct (decide (toCurrency s ∈ cryptoCurrencies)) as [Ht|Ht]].
  - rewrite !resolveRate_crypto by (by rewrite (includes_true _ _ Hf)).
    simpl. rewrite app_nil_r. by destruct e.
  - rewrite !resolveRate_crypto
      by (by rewrite (includes_true _ _ Ht), orb_true_r).
    simpl. rewrite app_nil_r. by destruct e.
  - by rewrite !resolveRate_fiat.
Qed.

Lemma fetchExchangeRate_failure (w : World) (fuel : nat) (s : State) (x : exn) :
  (resolveRate w s no_effects).2 = Throw x ->
  fetchExchangeRate w fuel s no_effects
  = ({| requests := requests (resolveRate w s no_effects).1;
        console := [("Error fetching exchange rate:", x)];
        queue := [setLoading true; setError ""; setError failureMessage;
                  setLoading false];
        draws := 0 |}, Ok tt).
Proof.
  intros Hx. unfold fetchExchangeRate, bind, try_catch, call. simpl.
  rewrite resolveRate_frame, Hx. reflexivity.
Qed.

(** C7: when the resolver fails (a rejected request, a response that is not
    successful, a missing or falsy rate), the cycle ends with the fixed
    error message, [loading] false, and the stored rate and series
    untouched. *)
Theorem failed_cycle (w : World) (fuel : nat) (s : State) :
  (fromCurrency s ∉ cryptoCurrencies -> toCurrency s ∉ cryptoCurrencies ->
   fetch w (rateUrl (fromCurrency s)) = None
   \/ (exists response : Response,
         fetch w (rateUrl (fromCurrency s)) = Some response
         /\ (ok response = false
             \/ exists rates : gmap string number,
                 body response = Json (Some rates)
                 /\ truthy (index rates (toCurrency s)) = false)) ->
   resolve_fails w s)
  /\ (resolve_fails w s ->
      exists s' : State,
        after (fetchExchangeRate w fuel) s = Some s'
        /\ error s' = "Failed to fetch exchange rate. Please try again later."
        /\ errorBanner s'
           = Some "Failed to fetch exchange rate. Please try again later."
        /\ loading s' = false
        /\ exchangeRate s' = exchangeRate s
        /\ historicalRates s' = historicalRates s).
Proof.
  split.
  - intros Hf Ht Hcause. unfold resolve_fails.
    rewrite (resolveRate_fiat w s no_effects Hf Ht). simpl.
    destruct Hcause as [-> | (response & -> & [Hok | (rates & Hbody & Hrate)])].
    + by eexists.
    + rewrite Hok. by eexists.
    + rewrite Hbody, Hrate. destruct (ok response); by eexists.
  - intros [x Hx]. unfold after.
    rewrite (fetchExchangeRate_failure w fuel s x Hx).
    eexists. split; [reflexivity|]. repeat split; reflexivity.
Qed.

Lemma failed_cycle_witness :
  exists s' : State,
    after (fetchExchangeRate (offline 0) 0) (sample_state "USD" "EUR") = Some s'
    /\ error s' = "Failed to fetch exchange rate. Please try again later."
    /\ errorBanner s'
       = Some "Failed to fetch exchange rate. Please try again later."
    /\ loading s' = false
    /\ exchangeRate s' = Finite (9 # 10)
    /\ historicalRates s' = [].
Proof.
  destruct (failed_cycle (offline 0) 0 (sample_state "USD" "EUR")) as [Hcause Hend].
  apply Hend. apply Hcause; [compute_done | compute_done | left; reflexivity].
Defined.

(** ** The calendar *)

Ltac split_tests :=
  repeat match goal with
         | |- context [?a <=? ?b] => destruct (Z.leb_spec a b); try lia
         | |- context [?a <? ?b] => destruct (Z.ltb_spec a b); try lia
         end.

Ltac euclid := Z.to_euclidean_division_equations; lia.

Lemma year_of_era (doe : Z) :
  0 <= doe < 146097 ->
  let yoe := (doe - doe / 1460 + doe / 36524 - doe / 146096) / 365 in
  let doy := doe - (365 * yoe + yoe / 4 - yoe / 100) in
  0 <= yoe <= 399 /\ 0 <= doy <= 365.
Proof. intros H. cbv zeta. euclid. Qed.

(** [civilFromDays] returns a date of the calendar whose day number is its
    argument. *)
Lemma civilFromDays_spec (z : Z) :
  let '(y, m, d) := civilFromDays z in
  daysFromCivil y m d = z /\ 1 <= m <= 12 /\ 1 <= d <= 31.
Proof.
  unfold civilFromDays, daysFromCivil.
  set (z' := z + 719468).
  assert (Hdoe : 0 <= z' mod 146097 < 146097) by (apply Z.mod_pos_bound; lia).
  pose proof (Z.div_mod z' 146097 ltac:(lia)) as Hz.
  set (era := z' / 146097) in *. set (doe := z' mod 146097) in *.
  pose proof (year_of_era doe Hdoe) as Hy. cbv zeta in Hy.
  set (yoe := (doe - doe / 1460 + doe / 36524 - doe / 146096) / 365) in *.
  set (doy := doe - (365 * yoe + yoe / 4 - yoe / 100)) in *.
  destruct Hy as [Hyoe Hdoy].
  set (mp := (5 * doy + 2) / 153).
  assert (Hmp : 0 <= mp <= 11) by (subst mp; euclid).
  destruct (Z.ltb_spec mp 10) as [E|E].
  - destruct (Z.leb_spec (mp + 3) 2) as [E2|E2]; [lia|].
    replace (mp + 3 - 3) with mp by lia.
    split; [|split; [lia|]].
    + subst doy. clearbody yoe era doe. euclid.
    + subst mp. clearbody doy. euclid.
  - destruct (Z.leb_spec (mp - 9) 2) as [E2|E2]; [|lia].
    replace (mp - 9 + 9) with mp by lia.
    replace (yoe + era * 400 + 1 - 1) with (yoe + era * 400) by lia.
    split; [|split; [lia|]].
    + subst doy. clearbody yoe era doe. euclid.
    + subst mp. clearbody doy. euclid.
Qed.

Lemma Day_MakeDate (day time : Z) :
  0 <= time < msPerDay ->
  Day (MakeDate day time) = day /\ TimeWithinDay (MakeDate day time) = time.
Proof. unfold Day, TimeWithinDay, MakeDate, msPerDay. intros H. split; euclid. Qed.

Lemma TimeWithinDay_bound (t : Z) : 0 <= TimeWithinDay t < msPerDay.
Proof. unfold TimeWithinDay, msPerDay. apply Z.mod_pos_bound. lia. Qed.

Lemma MakeDate_Day (t : Z) : MakeDate (Day t) (TimeWithinDay t) = t.
Proof. unfold Day, TimeWithinDay, MakeDate, msPerDay. euclid. Qed.

(** Within the month of [t], [MakeDay] counts days from the day of [t]. *)
Lemma MakeDay_same_month (t dt : Z) :
  MakeDay (getFullYear t) (getMonth t) dt = Day t - getDate t + dt.
Proof.
  unfold getFullYear, getMonth, getDate.
  pose proof (civilFromDays_spec (Day t)) as H.
  destruct (civilFromDays (Day t)) as [[y m] d]. simpl.
  destruct H as (Hz & Hm & Hd). rewrite <- Hz.
  unfold MakeDay.
  replace ((m - 1) / 12) with 0 by euclid.
  replace ((m - 1) mod 12) with (m - 1) by euclid.
  replace (y + 0) with y by lia. replace (m - 1 + 1) with m by lia.
  unfold daysFromCivil. lia.
Qed.

(** [setDate] by an offset from the current day of the month moves the
    time value by whole days. *)
Lemma setDate_shift (t k : Z) : setDate t (getDate t + k) = t + k * msPerDay.
Proof.
  unfold setDate. rewrite MakeDay_same_month.
  pose proof (MakeDate_Day t) as H. unfold MakeDate in *.
  set (day := Day t) in *. set (time := TimeWithinDay t) in *.
  unfold msPerDay in *. lia.
Qed.

Lemma Day_shift (t k : Z) : Day (t + k * msPerDay) = Day t + k.
Proof. unfold Day, msPerDay. euclid. Qed.

Lemma TimeWithinDay_shift (t k : Z) :
  TimeWithinDay (t + k * msPerDay) = TimeWithinDay t.
Proof. unfold TimeWithinDay, msPerDay. euclid. Qed.

Lemma subDays_shift (t k : Z) : subDays t k = t - k * msPerDay.
Proof.
  unfold subDays, addDays. destruct (Z.eqb_spec (- k) 0) as [E|E]; [lia|].
  rewrite setDate_shift. lia.
Qed.

Lemma MakeDay_monthStart (year month dt : Z) :
  MakeDay year month dt = monthStart (12 * year + month) + dt - 1.
Proof.
  unfold monthStart, MakeDay.
  replace ((12 * year + month) / 12) with (year + month / 12) by euclid.
  replace ((12 * year + month) mod 12) with (month mod 12) by euclid.
  replace (0 + (year + month / 12)) with (year + month / 12) by lia. lia.
Qed.

(** Every month has at least 28 days. *)
Lemma monthStart_step (n : Z) : monthStart n + 28 <= monthStart (n + 1).
Proof.
  unfold monthStart, MakeDay, daysFromCivil.
  assert (Hc : (n + 1) mod 12 = n mod 12 + 1 /\ (n + 1) / 12 = n / 12
               /\ 0 <= n mod 12 <= 10
               \/ n mod 12 = 11 /\ (n + 1) mod 12 = 0 /\ (n + 1) / 12 = n / 12 + 1)
    by euclid.
  set (r := n mod 12) in *. set (q := n / 12) in *. clearbody r q.
  destruct Hc as [(-> & -> & Hr)|(-> & -> & ->)]; split_tests; euclid.
Qed.

Lemma monthStart_mono (n k : Z) : 0 <= k -> monthStart n <= monthStart (n + k).
Proof.
  intros Hk. pattern k. apply natlike_ind; [| |exact Hk].
  - replace (n + 0) with n by lia. lia.
  - intros x Hx IH. pose proof (monthStart_step (n + x)).
    replace (n + Z.succ x) with (n + x + 1) by lia. lia.
Qed.

(** Going back by months keeps the time of the day and lands on an earlier
    day. *)
Lemma addMonths_back (t amount : Z) :
  amount < 0 ->
  Day (addMonths t amount) < Day t
  /\ TimeWithinDay (addMonths t amount) = TimeWithinDay t.
Proof.
  intros Ha. unfold addMonths.
  destruct (Z.eqb_spec amount 0) as [E|_]; [lia|].
  pose proof (TimeWithinDay_bound t) as Ht.
  set (E := setMonth t (getMonth t + amount + 1) 0).
  assert (HE : Day E = monthStart (12 * getFullYear t + getMonth t + amount + 1) - 1
               /\ TimeWithinDay E = TimeWithinDay t).
  { subst E. unfold setMonth. rewrite MakeDay_monthStart.
    destruct (Day_MakeDate
                (monthStart (12 * getFullYear t + (getMonth t + amount + 1)) + 0 - 1)
                (TimeWithinDay t) Ht) as [-> ->].
    split; [|reflexivity].
    replace (12 * getFullYear t + (getMonth t + amount + 1))
      with (12 * getFullYear t + getMonth t + amount + 1) by lia.
    lia. }
  destruct HE as [HE1 HE2].
  assert (Hlt : Day E < Day t - getDate t + 1).
  { rewrite HE1. pose proof (MakeDay_same_month t 1) as H1.
    rewrite MakeDay_monthStart in H1.
    pose proof (monthStart_mono (12 * getFullYear t + getMonth t + amount + 1)
                  (- amount - 1) ltac:(lia)) as Hm.
    replace (12 * getFullYear t + getMonth t + amount + 1 + (- amount - 1))
      with (12 * getFullYear t + getMonth t) in Hm by lia.
    lia. }
  assert (Hd : 1 <= getDate t).
  { unfold getDate. pose proof (civilFromDays_spec (Day t)) as H.
    destruct (civilFromDays (Day t)) as [[y m] d]. simpl. lia. }
  destruct (Z.geb_spec (getDate t) (getDate E)) as [Hge|Hlt'].
  - split; [lia|exact HE2].
  - unfold setFullYear.
    destruct (Day_MakeDate (MakeDay (getFullYear E) (getMonth E) (getDate t))
                (TimeWithinDay t) Ht) as [-> ->].
    split; [|reflexivity]. rewrite MakeDay_same_month. lia.
Qed.

(** [format] only looks at the day of the time value. *)
Lemma format_Day (t : Z) : format t = format (MakeDate (Day t) 0).
Proof.
  unfold format, getFullYear, getMonth, getDate.
  by rewrite (proj1 (Day_MakeDate (Day t) 0 ltac:(unfold msPerDay; lia))).
Qed.

(** ** The historical series *)

Lemma getDateRange_run (w : World) (s : State) (e : Effects) :
  getDateRange w s e = (e, Ok (rangeStart (clock w) (timeRange s))).
Proof.
  unfold getDateRange, rangeStart, bind, new_Date.
  repeat (destruct (String.eqb _ _); [reflexivity|]). reflexivity.
Qed.

Lemma rangeStart_before (today : Z) (range : string) :
  Day (rangeStart today range) < Day today
  /\ TimeWithinDay (rangeStart today range) = TimeWithinDay today.
Proof.
  unfold rangeStart, subYears, addYears, subMonths.
  repeat (destruct (String.eqb _ _); [by apply addMonths_back|]).
  rewrite subDays_shift.
  replace (today - 7 * msPerDay) with (today + (-7) * msPerDay) by lia.
  rewrite Day_shift, TimeWithinDay_shift. lia.
Qed.

(** The loop pushes one date per day, [n] of them when the clock lies in
    the [n]-th day after [currentDate], and stops by its own test. *)
Lemma datesLoop_run (w : World) (e : Effects) (n : nat) :
  forall (currentDate : Z) (fuel : nat),
    currentDate + (Z.of_nat n - 1) * msPerDay <= clock w ->
    clock w < currentDate + Z.of_nat n * msPerDay ->
    (n < fuel)%nat ->
    datesLoop w fuel currentDate e
    = (e, Ok (map (fun k => format (currentDate + Z.of_nat k * msPerDay))
                  (seq 0 n))).
Proof.
  induction n as [|n IH]; intros cur fuel Hlo Hhi Hfuel;
    (destruct fuel as [|fuel]; [lia|]); simpl datesLoop; unfold bind, new_Date.
  - destruct (Z.leb_spec cur (clock w)); [lia|reflexivity].
  - destruct (Z.leb_spec cur (clock w)) as [_|Hgt]; [|unfold msPerDay in *; lia].
    rewrite setDate_shift, (IH (cur + 1 * msPerDay) fuel) by lia.
    unfold ret. do 2 f_equal. cbn [seq map]. rewrite <- seq_shift, map_map.
    f_equal; [f_equal; lia|]. apply map_ext. intros k. f_equal. lia.
Qed.



Lemma mapM_simulate (w : World) (s : State) (dates : list string) :
  forall e : Effects,
    mapM (fun d =>
            r <- Math_random w;;
            ret {| date := d;
                   rate := simulatedRate (exchangeRate s) (volatility s) r |})
         dates e
    = ({| requests := requests e; console := console e; queue := queue e;
          draws := draws e + length dates |},
       Ok (simulate w s (draws e) dates)).
Proof.
  unfold simulate. induction dates as [|d dates IH]; intros e.
  - simpl. unfold ret. destruct e; simpl. do 2 f_equal. lia.
  - simpl mapM. unfold bind at 1 2. unfold Math_random at 1. unfold ret at 1.
    unfold bind at 1. rewrite IH. unfold ret. simpl.
    f_equal; [f_equal; lia|]. f_equal. f_equal; [do 5 f_equal; lia|].
    apply imap_ext. intros i x _. simpl. do 4 f_equal. lia.
Qed.

Lemma fetchHistoricalRates_run (w : World) (s : State) (e : Effects) (fuel : nat) :
  (Z.to_nat (Day (clock w) - Day (rangeStart (clock w) (timeRange s))) + 1
   < fuel)%nat ->
  fetchHistoricalRates w fuel s e
  = ({| requests := requests e; console := console e;
        queue := (queue e
                  ++ [setHistoricalRates (simulate w s (draws e) (seriesDates w s))])%list;
        draws := draws e + length (seriesDates w s) |}, Ok tt).
Proof.
  intros Hfuel. unfold fetchHistoricalRates.
  unfold bind at 1. rewrite getDateRange_run.
  destruct (rangeStart_before (clock w) (timeRange s)) as [Hday Htime].
  set (start := rangeStart (clock w) (timeRange s)) in *.
  set (n := Z.to_nat (Day (clock w) - Day start)) in *.
  assert (Hclock : clock w = start + Z.of_nat n * msPerDay).
  { pose proof (MakeDate_Day start) as H1. pose proof (MakeDate_Day (clock w)) as H2.
    rewrite Htime in H1. unfold MakeDate in *. subst n.
    rewrite Z2Nat.id by lia. unfold msPerDay in *. lia. }
  unfold bind at 1.
  rewrite (datesLoop_run w e (S n) start fuel)
    by (rewrite ?Nat2Z.inj_succ; unfold msPerDay in *; lia).
  assert (Hdates : map (fun k => format (start + Z.of_nat k * msPerDay)) (seq 0 (S n))
                   = seriesDates w s).
  { unfold seriesDates, seqZ. fold start.
    replace (Z.to_nat (Day (clock w) - Day start + 1)) with (S n) by lia.
    rewrite <- list_fmap_compose. apply map_ext. intros k. simpl.
    rewrite format_Day, Day_shift. do 2 f_equal. lia. }
  rewrite Hdates. unfold bind at 1. rewrite mapM_simulate. reflexivity.
Qed.



Example series_of_each_range :
  map (fun range => hd_error (seriesDates march_31 (range_state range)))
      ["1w"; "1m"; "3m"; "1y"; ""]
  = [Some "2024-03-24"; Some "2024-02-29"; Some "2023-12-31";
     Some "2023-03-31"; Some "2024-03-24"]
  /\ map (fun range => length (seriesDates march_31 (range_state range)))
         ["1w"; "1m"; "3m"; "1y"; ""]
     = [8; 32; 92; 367; 8]%nat
  /\ seriesDates march_31 (range_state "1w")
     = ["2024-03-24"; "2024-03-25"; "2024-03-26"; "2024-03-27"; "2024-03-28";
        "2024-03-29"; "2024-03-30"; "2024-03-31"].
Proof. repeat split; vm_compute; reflexivity. Qed.

(** ** The volatility bound *)

Lemma Qis_neg_spec (q : Q) : Qis_neg q = true <-> (q < 0)%Q.
Proof. unfold Qis_neg, Qlt. rewrite Z.ltb_lt. simpl. lia. Qed.

Lemma Qis_zero_spec (q : Q) : Qis_zero q = true <-> (q == 0)%Q.
Proof. unfold Qis_zero, Qeq. rewrite Z.eqb_eq. simpl. lia. Qed.

Lemma Qis_neg_pos (q : Q) : (0 < q)%Q -> Qis_neg (Qred q) = false.
Proof.
  intros H. apply not_true_is_false. rewrite Qis_neg_spec, Qred_correct. lra.
Qed.

Lemma Qis_zero_pos (q : Q) : (0 < q)%Q -> Qis_zero (Qred q) = false.
Proof.
  intros H. apply not_true_is_false. rewrite Qis_zero_spec, Qred_correct. lra.
Qed.

Lemma draw_scaled (v r : Q) :
  (0 <= v)%Q -> (0 <= r < 1)%Q -> (0 <= r * v <= v)%Q.
Proof. intros Hv Hr. split; nra. Qed.

Lemma perturbation_bounds (b v r : Q) :
  (0 <= v)%Q -> (0 <= r < 1)%Q ->
  ((0 <= b)%Q ->
   (b * (1 - v) <= b * (1 + (r * v * 2 - v)) <= b * (1 + v))%Q)
  /\ ((b <= 0)%Q ->
      (b * (1 + v) <= b * (1 + (r * v * 2 - v)) <= b * (1 - v))%Q).
Proof.
  intros Hv Hr. destruct (draw_scaled v r Hv Hr) as [H1 H2].
  set (t := (r * v)%Q) in *. clearbody t. split; intros Hb; split; nra.
Qed.

Lemma simulatedRate_between (base : number) (v r : Q) :
  base <> NaN -> (0 <= v < 1)%Q -> (0 <= r < 1)%Q ->
  between (lowerRate base (Finite v)) (upperRate base (Finite v))
          (simulatedRate base (Finite v) (Finite r))
  /\ (num_le (Finite 0) base ->
      num_le (lowerRate base (Finite v)) (simulatedRate base (Finite v) (Finite r))
      /\ num_le (simulatedRate base (Finite v) (Finite r))
                (upperRate base (Finite v))).
Proof.
  intros Hbase [Hv0 Hv1] Hr.
  destruct (draw_scaled v r Hv0 Hr) as [Ht0 Ht1].
  unfold between, lowerRate, upperRate, simulatedRate, lit.
  destruct base as [|a|b]; [done| |].
  - cbn [num_mul num_add num_sub].
    rewrite !Qis_zero_pos, !Qis_neg_pos by (rewrite ?Qred_correct; lra).
    destruct a; simpl; tauto.
  - cbn [num_mul num_add num_sub num_le]. rewrite !Qred_correct.
    destruct (perturbation_bounds b v r Hv0 Hr) as [Hpos Hneg].
    destruct (Qlt_le_dec b 0) as [Hb|Hb].
    + split; [right; apply Hneg; lra|intros Hb'; lra].
    + split; [left; apply Hpos; lra|intros _; apply Hpos; lra].
Qed.

Lemma volatility_cases (s : State) :
  exists v : Q,
      volatility s = Finite v /\ (0 <= v < 1)%Q
      /\ (fromCurrency s ∈ cryptoCurrencies \/ toCurrency s ∈ cryptoCurrencies ->
          (v == 0.15)%Q)
      /\ (fromCurrency s ∉ cryptoCurrencies -> toCurrency s ∉ cryptoCurrencies ->
          (v == 0.05)%Q).
Proof.
  unfold volatility, includes.
  destruct (decide (fromCurrency s ∈ cryptoCurrencies)) as [Hf|Hf];
    [|destruct (decide (toCurrency s ∈ cryptoCurrencies)) as [Ht|Ht]].
  - rewrite (bool_decide_eq_true_2 _ Hf). simpl.
    eexists. split; [reflexivity|]. split; [split; by vm_compute|].
    split; [reflexivity|done].
  - rewrite (bool_decide_eq_true_2 _ Ht), orb_true_r.
    eexists. split; [reflexivity|]. split; [split; by vm_compute|].
    split; [reflexivity|done].
  - rewrite (bool_decide_eq_false_2 _ Hf), (bool_decide_eq_false_2 _ Ht).
    simpl.
    eexists. split; [reflexivity|]. split; [split; by vm_compute|].
    split; [tauto|reflexivity].
Qed.

(** C6: with a random source in [0, 1), every point of the series has its
    rate between [base * (1 - volatility)] and [base * (1 + volatility)],
    where the volatility is 0.15 as soon as one leg is crypto and 0.05
    otherwise, and [base] is the stored rate of the snapshot. *)
Theorem historical_rates_bounded (w : World) (s : State) (e : Effects)
    (fuel : nat) :
  exchangeRate s <> NaN ->
  (forall i : nat, (0 <= random w i < 1)%Q) ->
  (Z.to_nat (Day (clock w) - Day (rangeStart (clock w) (timeRange s))) + 1
   < fuel)%nat ->
  exists (v : Q) (e' : Effects) (h : list HistoricalPoint),
    (fromCurrency s ∈ cryptoCurrencies \/ toCurrency s ∈ cryptoCurrencies ->
     (v == 0.15)%Q)
    /\ (fromCurrency s ∉ cryptoCurrencies -> toCurrency s ∉ cryptoCurrencies ->
        (v == 0.05)%Q)
    /\ fetchHistoricalRates w fuel s e = (e', Ok tt)
    /\ queue e' = (queue e ++ [setHistoricalRates h])%list
    /\ h <> []
    /\ forall p : HistoricalPoint,
        p ∈ h ->
        between (lowerRate (exchangeRate s) (Finite v))
                (upperRate (exchangeRate s) (Finite v)) (rate p)
        /\ (num_le (Finite 0) (exchangeRate s) ->
            num_le (lowerRate (exchangeRate s) (Finite v)) (rate p)
            /\ num_le (rate p) (upperRate (exchangeRate s) (Finite v))).
Proof.
  intros Hbase Hrandom Hfuel.
  destruct (volatility_cases s) as (v & Hvol & Hv & Hcrypto & Hfiat).
  exists v. rewrite (fetchHistoricalRates_run w s e fuel Hfuel).
  do 2 eexists. split; [exact Hcrypto|]. split; [exact Hfiat|].
  split; [reflexivity|]. split; [reflexivity|]. split.
  - intros Hnil. apply (f_equal length) in Hnil.
    unfold simulate in Hnil. rewrite length_imap in Hnil.
    unfold seriesDates in Hnil. rewrite length_map, length_seqZ in Hnil.
    pose proof (rangeStart_before (clock w) (timeRange s)) as [Hday _].
    simpl in Hnil. lia.
  - intros p Hp. unfold simulate in Hp.
    apply elem_of_lookup_imap in Hp as (i & d & -> & _). simpl.
    rewrite Hvol. by apply simulatedRate_between.
Qed.

Lemma historical_rates_bounded_witness :
  exists (v : Q) (e' : Effects) (h : list HistoricalPoint),
    (fromCurrency (range_state "1w") ∈ cryptoCurrencies
     \/ toCurrency (range_state "1w") ∈ cryptoCurrencies -> (v == 0.15)%Q)
    /\ (fromCurrency (range_state "1w") ∉ cryptoCurrencies ->
        toCurrency (range_state "1w") ∉ cryptoCurrencies -> (v == 0.05)%Q)
    /\ fetchHistoricalRates extremes 10 (range_state "1w") no_effects = (e', Ok tt)
    /\ queue e' = [setHistoricalRates h]
    /\ h <> []
    /\ forall p : HistoricalPoint,
        p ∈ h ->
        between (lowerRate (Finite (9 # 10)) (Finite v))
                (upperRate (Finite (9 # 10)) (Finite v)) (rate p)
        /\ (num_le (Finite 0) (Finite (9 # 10)) ->
            num_le (lowerRate (Finite (9 # 10)) (Finite v)) (rate p)
            /\ num_le (rate p) (upperRate (Finite (9 # 10)) (Finite v))).
Proof.
  apply (historical_rates_bounded extremes (range_state "1w") no_effects 10).
  - discriminate.
  - intros i. simpl. destruct (Nat.even i); split; by vm_compute.
  - vm_compute. lia.
Defined.

Example extreme_series :
  map rate (simulate extremes (range_state "1w") 0 ["a"; "b"])
  = [Finite (171 # 200); Finite (94491 # 100000)]
  /\ lowerRate (Finite (9 # 10)) (Finite (1 # 20)) = Finite (171 # 200)
  /\ upperRate (Finite (9 # 10)) (Finite (1 # 20)) = Finite (189 # 200).
Proof. repeat split; vm_compute; reflexivity. Qed.

(** ** The displayed lines *)

Lemma length_append (s t : string) :
  String.length (s ++ t) = (String.length s + String.length t)%nat.
Proof. induction s as [|c s IH]; simpl; [reflexivity|by rewrite IH]. Qed.

Lemma length_zeros (n : nat) : String.length (zeros n) = n.
Proof. induction n as [|n IH]; simpl; [reflexivity|by rewrite IH]. Qed.

Lemma length_substring (s : string) :
  forall n m : nat,
    (n + m <= String.length s)%nat -> String.length (substring n m s) = m.
Proof.
  induction s as [|c s IH]; intros [|n] [|m] H; simpl in *; try lia.
  - rewrite IH; lia.
  - rewrite IH; lia.
  - rewrite IH; lia.
Qed.

Lemma length_padStart (s : string) (n : nat) :
  (n <= String.length (padStart s n))%nat.
Proof. unfold padStart. rewrite length_append, length_zeros. lia. Qed.

(** Below [10^21] a finite number is printed with exactly the requested
    number of digits after the point. *)
Lemma toFixed_decimals (e : Q -> string) (q : Q) (f : nat) :
  Qle_bool (10 ^ 21) (Qabs q) = false -> (0 < f)%nat ->
  exists sign whole fraction : string,
    toFixed e (Finite q) f = sign ++ whole ++ "." ++ fraction
    /\ (sign = "" \/ sign = "-")
    /\ String.length fraction = f.
Proof.
  intros Hsmall Hf. unfold toFixed. rewrite Hsmall.
  destruct f as [|f]; [lia|].
  do 3 eexists. split; [reflexivity|]. split.
  - destruct (Qis_neg q); tauto.
  - apply length_substring.
    pose proof (length_padStart
                  (decimal (Qfloor (Qabs q * 10 ^ Z.of_nat (S f) + (1 # 2))))
                  (S (S f))). lia.
Qed.

(** C9: an amount that does not parse gives the message, without any
    [NaN] in the line; an amount that parses as a finite number other than
    zero gives the product with the effective rate printed by [toFixed(2)],
    and the unit rate line prints the effective rate by [toFixed(4)]. *)
Theorem conversion_display (e : Q -> string) (s : State) :
  (parseFloat (amount s) = NaN ->
   conversionLine e s = "Please enter a valid amount"
   /\ containsString (conversionLine e s) "NaN" = false)
  /\ (forall q : Q,
         parseFloat (amount s) = Finite q -> ~ (q == 0)%Q ->
         conversionLine e s
         = amount s ++ " " ++ fromCurrency s ++ " = "
             ++ toFixed e (num_mul (Finite q) (effectiveRate s)) 2
             ++ " " ++ toCurrency s
         /\ (forall x : Q,
                num_mul (Finite q) (effectiveRate s) = Finite x ->
                Qle_bool (10 ^ 21) (Qabs x) = false ->
                exists sign whole fraction : string,
                  toFixed e (Finite x) 2 = sign ++ whole ++ "." ++ fraction
                  /\ String.length fraction = 2%nat))
  /\ unitRateLine e s
     = "1 " ++ fromCurrency s ++ " = " ++ toFixed e (effectiveRate s) 4
         ++ " " ++ toCurrency s
         ++ (if useCustomRate s then " (Custom Rate)" else "")
  /\ (forall x : Q,
         effectiveRate s = Finite x -> Qle_bool (10 ^ 21) (Qabs x) = false ->
         exists sign whole fraction : string,
           toFixed e (Finite x) 4 = sign ++ whole ++ "." ++ fraction
           /\ String.length fraction = 4%nat).
Proof.
  split; [|split; [|split]].
  - intros Hnan. unfold conversionLine. rewrite Hnan. split; reflexivity.
  - intros q Hq Hnz. unfold conversionLine. rewrite Hq. simpl truthy.
    assert (Hz : Qis_zero q = false)
      by (apply not_true_is_false; by rewrite Qis_zero_spec).
    rewrite Hz. split; [reflexivity|].
    intros x _ Hsmall.
    destruct (toFixed_decimals e x 2 Hsmall ltac:(lia))
      as (sign & whole & fraction & H1 & _ & H2). by exists sign, whole, fraction.
  - reflexivity.
  - intros x _ Hsmall.
    destruct (toFixed_decimals e x 4 Hsmall ltac:(lia))
      as (sign & whole & fraction & H1 & _ & H2). by exists sign, whole, fraction.
Qed.

Lemma conversion_display_witness :
  (conversionLine (fun _ => "") (amount_state "abc" (Finite (9 # 10)))
   = "Please enter a valid amount"
   /\ containsString
        (conversionLine (fun _ => "") (amount_state "abc" (Finite (9 # 10))))
        "NaN" = false)
  /\ conversionLine (fun _ => "") (amount_state "100" (Finite (9 # 10)))
     = "100 USD = 90.00 EUR"
  /\ unitRateLine (fun _ => "") (amount_state "100" (Finite (9 # 10)))
     = "1 USD = 0.9000 EUR".
Proof.
  split; [|split].
  - apply (conversion_display (fun _ => "") (amount_state "abc" (Finite (9 # 10)))).
    reflexivity.
  - destruct (conversion_display (fun _ => "")
                (amount_state "100" (Finite (9 # 10)))) as (_ & H & _).
    destruct (H 100%Q eq_refl ltac:(discriminate)) as [Hline _]. exact Hline.
  - destruct (conversion_display (fun _ => "")
                (amount_state "100" (Finite (9 # 10)))) as (_ & _ & H & _).
    exact H.
Defined.

(** C10: an amount that parses as zero, such as ["0"], is displayed as
    invalid: the line tests the truthiness of the parsed amount, and zero is
    falsy like [NaN]. *)
Theorem zero_amount_invalid (e : Q -> string) (s : State) :
  (parseFloat (amount s) = Finite 0 ->
   truthy (parseFloat (amount s)) = false
   /\ conversionLine e s = "Please enter a valid amount")
  /\ (amount s = "0" -> conversionLine e s = "Please enter a valid amount").
Proof.
  unfold conversionLine. split.
  - intros ->. split; reflexivity.
  - intros ->. reflexivity.
Qed.

Lemma zero_amount_invalid_witness :
  conversionLine (fun _ => "") (amount_state "0" (Finite (9 # 10)))
  = "Please enter a valid amount"
  /\ conversionLine (fun _ => "") (amount_state "-0.00" (Finite (9 # 10)))
     = "Please enter a valid amount".
Proof.
  split.
  - apply (zero_amount_invalid (fun _ => "") (amount_state "0" (Finite (9 # 10)))).
    reflexivity.
  - apply (proj1 (zero_amount_invalid (fun _ => "")
                    (amount_state "-0.00" (Finite (9 # 10))))).
    reflexivity.
Defined.

(** ** A successful resolve cycle *)

(** What the resolver returns is what the cycle stores; the series is
    simulated around the rate of the snapshot, which is the quote of the
    previous cycle. *)
Lemma fetchExchangeRate_success (w : World) (fuel : nat) (s : State)
    (resolved : number) :
  (resolveRate w s no_effects).2 = Ok resolved ->
  (Z.to_nat (Day (clock w) - Day (rangeStart (clock w) (timeRange s))) + 1
   < fuel)%nat ->
  fetchExchangeRate w fuel s no_effects
  = ({| requests := requests (resolveRate w s no_effects).1;
        console := [];
        queue := [setLoading true; setError ""; setExchangeRate resolved;
                  setHistoricalRates (simulate w s 0 (seriesDates w s));
                  setLoading false];
        draws := length (seriesDates w s) |}, Ok tt).
Proof.
  intros Hok Hfuel. unfold fetchExchangeRate, bind, try_catch, call. simpl.
  rewrite resolveRate_frame, Hok. simpl.
  rewrite (fetchHistoricalRates_run w s _ fuel Hfuel). reflexivity.
Qed.

Lemma successful_cycle (w : World) (fuel : nat) (s : State) (resolved : number) :
  (resolveRate w s no_effects).2 = Ok resolved ->
  (Z.to_nat (Day (clock w) - Day (rangeStart (clock w) (timeRange s))) + 1
   < fuel)%nat ->
  exists s' : State,
    after (fetchExchangeRate w fuel) s = Some s'
    /\ exchangeRate s' = resolved
    /\ historicalRates s' = simulate w s 0 (seriesDates w s)
    /\ loading s' = false /\ error s' = "".
Proof.
  intros Hok Hfuel. unfold after.
  rewrite (fetchExchangeRate_success w fuel s resolved Hok Hfuel).
  eexists. split; [reflexivity|]. repeat split; reflexivity.
Qed.

(** The resolver never returns [NaN], so that the stored rate, which starts
    at zero, is never [NaN]. *)
Lemma calculateCryptoRate_not_NaN (from to : string) :
  includes cryptoCurrencies from || includes cryptoCurrencies to = true ->
  calculateCryptoRate from to <> NaN.
Proof.
  unfold calculateCryptoRate, includes. intros H.
  assert (Hdiv : forall p q : number,
             (exists a, p = Finite a) ->
             (exists b, q = Finite b /\ ~ (b == 0)%Q) -> num_div p q <> NaN).
  { intros p q [a ->] (b & -> & Hb). simpl.
    assert (Hz : Qis_zero b = false)
      by (apply not_true_is_false; by rewrite Qis_zero_spec).
    by rewrite Hz. }
  destruct (bool_decide_reflect (from ∈ cryptoCurrencies)) as [Hf|Hf];
    destruct (bool_decide_reflect (to ∈ cryptoCurrencies)) as [Ht|Ht];
    simpl in *; try discriminate.
  - destruct (cryptoBaseRates_finite _ Hf) as (p & Hp & _).
    destruct (cryptoBaseRates_finite _ Ht) as (q & Hq & Hq0 & _).
    apply Hdiv; eauto.
  - destruct (cryptoBaseRates_finite _ Hf) as (p & -> & _). discriminate.
  - destruct (cryptoBaseRates_finite _ Ht) as (q & Hq & Hq0 & _).
    change (num_div (lit 1) (index cryptoBaseRates to) <> NaN).
    apply Hdiv; [by exists (Qred 1)|eauto].
Qed.

Lemma resolveRate_not_NaN (w : World) (s : State) (resolved : number) :
  (resolveRate w s no_effects).2 = Ok resolved -> resolved <> NaN.
Proof.
  destruct (includes cryptoCurrencies (fromCurrency s)
            || includes cryptoCurrencies (toCurrency s)) eqn:Hc.
  - rewrite (resolveRate_crypto w s no_effects Hc). intros [= <-].
    by apply calculateCryptoRate_not_NaN.
  - apply orb_false_elim in Hc as [Hf Ht]. unfold includes in Hf, Ht.
    apply bool_decide_eq_false in Hf, Ht.
    rewrite (resolveRate_fiat w s no_effects Hf Ht). simpl.
    destruct (fetch w _) as [response|]; [|discriminate].
    destruct (ok response); [|discriminate].
    destruct (body response) as [|[rates|]]; try discriminate.
    destruct (truthy (index rates (toCurrency s))) eqn:Htruthy; [|discriminate].
    intros [= <-] Hnan. by rewrite Hnan in Htruthy.
Qed.

(** The loop neither throws nor has any effect. *)
Lemma datesLoop_pure (w : World) (fuel : nat) :
  forall (currentDate : Z) (e : Effects),
    (exists dates, datesLoop w fuel currentDate e = (e, Ok dates))
    \/ datesLoop w fuel currentDate e = (e, Diverge).
Proof.
  induction fuel as [|fuel IH]; intros cur e; simpl; [by right|].
  unfold bind, new_Date. destruct (cur <=? clock w); [|left; by eexists].
  destruct (IH (setDate cur (getDate cur + 1)) e) as [[dates ->]| ->];
    [left; by eexists|by right].
Qed.

Lemma fetchHistoricalRates_cases (w : World) (fuel : nat) (s : State)
    (e : Effects) :
  (exists (e' : Effects) (h : list HistoricalPoint),
      fetchHistoricalRates w fuel s e = (e', Ok tt)
      /\ queue e' = (queue e ++ [setHistoricalRates h])%list)
  \/ fetchHistoricalRates w fuel s e = (e, Diverge).
Proof.
  destruct (datesLoop_pure w fuel (rangeStart (clock w) (timeRange s)) e)
    as [[dates Hloop]|Hloop]; [left|right];
    unfold fetchHistoricalRates; unfold bind at 1; rewrite getDateRange_run;
    unfold bind at 1; rewrite Hloop; [|reflexivity].
  unfold bind at 1. rewrite mapM_simulate. do 2 eexists. split; reflexivity.
Qed.

Lemma stored_rate_not_NaN (w : World) (fuel : nat) (s s' : State) :
  exchangeRate s <> NaN -> after (fetchExchangeRate w fuel) s = Some s' ->
  exchangeRate s' <> NaN.
Proof.
  intros Hs. unfold after, fetchExchangeRate, bind, try_catch, call. simpl.
  rewrite resolveRate_frame.
  destruct ((resolveRate w s no_effects).2) as [resolved|x|] eqn:Hres; simpl.
  - pose proof (resolveRate_not_NaN w s resolved Hres) as Hok.
    match goal with
    | |- context [fetchHistoricalRates w fuel s ?e] =>
        destruct (fetchHistoricalRates_cases w fuel s e)
          as [(e' & h & -> & Hqueue)| ->]; [|discriminate]
    end.
    simpl. intros [= <-]. unfold commit. rewrite Hqueue. simpl. exact Hok.
  - by intros [= <-].
  - discriminate.
Qed.

(** The first cycle of a page on USD to EUR against a stubbed rate of 0.9:
    the lines show the resolved rate, and the series of this first cycle is
    simulated around the initial rate, zero. *)
Example first_cycle :
  let w := stub_api true [("EUR", Finite (9 # 10))] in
  let s := apply_update (initialState false) (setAmount "100") in
  exists s' : State,
    after (fetchExchangeRate w 10) s = Some s'
    /\ conversionLine (fun _ => "") s' = "100 USD = 90.00 EUR"
    /\ unitRateLine (fun _ => "") s' = "1 USD = 0.9000 EUR"
    /\ map date (historicalRates s')
       = ["1969-12-25"; "1969-12-26"; "1969-12-27"; "1969-12-28"; "1969-12-29";
          "1969-12-30"; "1969-12-31"; "1970-01-01"]
    /\ Forall (fun p => rate p = Finite 0) (historicalRates s').
Proof.
  eexists. split; [vm_compute; reflexivity|].
  repeat split; try reflexivity. repeat constructor.
Qed.


(** * Further properties *)

(** ** Months *)

Lemma monthIndex_eq (t : Z) : monthIndex t = 12 * getFullYear t + getMonth t.
Proof. reflexivity. Qed.

Lemma monthLength_eq (n : Z) : monthLength n = monthStart (n + 1) - monthStart n.
Proof. reflexivity. Qed.

Lemma monthStart_span1 (n : Z) : 28 <= monthStart (n + 1) - monthStart n <= 31.
Proof.
  unfold monthStart, MakeDay, daysFromCivil.
  assert (Hc : (n + 1) mod 12 = n mod 12 + 1 /\ (n + 1) / 12 = n / 12
               /\ 0 <= n mod 12 <= 10
               \/ n mod 12 = 11 /\ (n + 1) mod 12 = 0 /\ (n + 1) / 12 = n / 12 + 1)
    by euclid.
  set (r := n mod 12) in *. set (q := n / 12) in *. clearbody r q.
  destruct Hc as [(-> & -> & Hr)|(-> & -> & ->)]; split_tests; euclid.
Qed.

Ltac month_cases r :=
  let H := fresh in
  assert (r = 0 \/ r = 1 \/ r = 2 \/ r = 3 \/ r = 4 \/ r = 5 \/ r = 6
          \/ r = 7 \/ r = 8 \/ r = 9 \/ r = 10 \/ r = 11) as H by lia;
  repeat (destruct H as [->|H]; [try lia; split_tests; euclid|]);
  subst; try lia; split_tests; euclid.

Lemma monthStart_span3 (n : Z) : 89 <= monthStart (n + 3) - monthStart n <= 92.
Proof.
  unfold monthStart, MakeDay, daysFromCivil.
  assert (Hc : (n + 3) mod 12 = n mod 12 + 3 /\ (n + 3) / 12 = n / 12
               /\ 0 <= n mod 12 <= 8
               \/ 9 <= n mod 12 <= 11 /\ (n + 3) mod 12 = n mod 12 - 9
                  /\ (n + 3) / 12 = n / 12 + 1)
    by euclid.
  set (r := n mod 12) in *. set (q := n / 12) in *. clearbody r q.
  destruct Hc as [(-> & -> & Hr)|(Hr & -> & ->)]; month_cases r.
Qed.

Lemma monthStart_span12 (n : Z) : 365 <= monthStart (n + 12) - monthStart n <= 366.
Proof.
  unfold monthStart, MakeDay, daysFromCivil.
  replace ((n + 12) mod 12) with (n mod 12) by euclid.
  replace ((n + 12) / 12) with (n / 12 + 1) by euclid.
  set (r := n mod 12) in *. set (q := n / 12) in *. clearbody r q.
  split_tests; euclid.
Qed.

Lemma year_length (doe : Z) :
  0 <= doe < 146097 ->
  let yoe := (doe - doe / 1460 + doe / 36524 - doe / 146096) / 365 in
  yoe < 399 -> doe < 365 * (yoe + 1) + (yoe + 1) / 4 - (yoe + 1) / 100.
Proof. intros H. cbv zeta. euclid. Qed.

(** The day of [civilFromDays] lies before the first day of the next
    month. *)
Lemma civil_before_next_month (z : Z) :
  let '(y, m, d) := civilFromDays z in z < monthStart (12 * y + m).
Proof.
  unfold civilFromDays, monthStart, MakeDay, daysFromCivil.
  set (z' := z + 719468).
  assert (Hdoe : 0 <= z' mod 146097 < 146097) by (apply Z.mod_pos_bound; lia).
  pose proof (Z.div_mod z' 146097 ltac:(lia)) as Hz.
  set (era := z' / 146097) in *. set (doe := z' mod 146097) in *.
  pose proof (year_of_era doe Hdoe) as Hy. cbv zeta in Hy.
  pose proof (year_length doe Hdoe) as Hl. cbv zeta in Hl.
  set (yoe := (doe - doe / 1460 + doe / 36524 - doe / 146096) / 365) in *.
  set (doy := doe - (365 * yoe + yoe / 4 - yoe / 100)) in *.
  destruct Hy as [Hyoe Hdoy].
  set (mp := (5 * doy + 2) / 153).
  assert (Hmp : 0 <= mp <= 11) by (subst mp; euclid).
  assert (Hnext : 5 * doy + 2 < 153 * (mp + 1)) by (subst mp; euclid).
  assert (Hz' : z = era * 146097 + doe - 719468) by lia.
  clearbody mp.
  assert (Hdoy' : doe = doy + (365 * yoe + yoe / 4 - yoe / 100))
    by (subst doy; lia).
  clearbody doy yoe era doe. clear z' Hz.
  assert (mp = 0 \/ mp = 1 \/ mp = 2 \/ mp = 3 \/ mp = 4 \/ mp = 5 \/ mp = 6
          \/ mp = 7 \/ mp = 8 \/ mp = 9 \/ mp = 10 \/ mp = 11) as Hcase by lia.
  repeat (destruct Hcase as [->|Hcase]; [split_tests; euclid|]).
  subst mp. split_tests; euclid.
Qed.

Lemma getDate_positive (t : Z) : 1 <= getDate t.
Proof.
  unfold getDate. pose proof (civilFromDays_spec (Day t)) as H.
  destruct (civilFromDays (Day t)) as [[y m] d]. simpl. lia.
Qed.

(** A day is the day [getDate] of the month [monthIndex]. *)
Lemma Day_in_month (t : Z) :
  Day t = monthStart (monthIndex t) + getDate t - 1
  /\ 1 <= getDate t <= monthLength (monthIndex t).
Proof.
  pose proof (MakeDay_same_month t 1) as H1. rewrite MakeDay_monthStart in H1.
  pose proof (getDate_positive t) as Hd.
  pose proof (civil_before_next_month (Day t)) as Hn.
  unfold monthIndex, monthLength, getFullYear, getMonth, getDate in *.
  destruct (civilFromDays (Day t)) as [[y m] d]. simpl in *.
  replace (12 * y + (m - 1) + 1) with (12 * y + m) by lia. lia.
Qed.

Lemma monthIndex_unique (t n : Z) :
  monthStart n <= Day t < monthStart (n + 1) -> monthIndex t = n.
Proof.
  intros [Hlo Hhi]. destruct (Day_in_month t) as [Hday Hd].
  rewrite monthLength_eq in Hd.
  destruct (Z.lt_trichotomy (monthIndex t) n) as [Hlt|[Heq|Hgt]]; [|exact Heq|].
  - pose proof (monthStart_mono (monthIndex t + 1) (n - monthIndex t - 1)
                  ltac:(lia)) as H1.
    replace (monthIndex t + 1 + (n - monthIndex t - 1)) with n in H1 by lia.
    exfalso. lia.
  - pose proof (monthStart_mono (n + 1) (monthIndex t - n - 1) ltac:(lia)) as H1.
    replace (n + 1 + (monthIndex t - n - 1)) with (monthIndex t) in H1 by lia.
    exfalso. lia.
Qed.

(** [addMonths] lands in the month [amount] months away, on the same day of
    the month or on the last day of a shorter month, at the same time. *)
Lemma addMonths_clamps (t amount : Z) :
  monthIndex (addMonths t amount) = monthIndex t + amount
  /\ getDate (addMonths t amount)
     = Z.min (getDate t) (monthLength (monthIndex t + amount))
  /\ TimeWithinDay (addMonths t amount) = TimeWithinDay t.
Proof.
  destruct (Day_in_month t) as [Hday Hd].
  pose proof (monthStart_step (monthIndex t + amount)) as Hlen.
  rewrite !monthLength_eq in *.
  unfold addMonths. destruct (Z.eqb_spec amount 0) as [->|Hne].
  { replace (monthIndex t + 0) with (monthIndex t) by lia.
    split; [reflexivity|]. split; [lia|reflexivity]. }
  pose proof (TimeWithinDay_bound t) as Ht.
  remember (setMonth t (getMonth t + amount + 1) 0) as E eqn:HEdef.
  assert (HE : Day E = monthStart (monthIndex t + amount + 1) - 1
               /\ TimeWithinDay E = TimeWithinDay t).
  { rewrite HEdef. unfold setMonth. rewrite MakeDay_monthStart.
    destruct (Day_MakeDate
                (monthStart (12 * getFullYear t + (getMonth t + amount + 1)) + 0 - 1)
                (TimeWithinDay t) Ht) as [-> ->].
    split; [|reflexivity]. rewrite monthIndex_eq.
    replace (12 * getFullYear t + (getMonth t + amount + 1))
      with (12 * getFullYear t + getMonth t + amount + 1) by lia.
    lia. }
  destruct HE as [HE1 HE2]. clear HEdef.
  assert (HEm : monthIndex E = monthIndex t + amount).
  { apply monthIndex_unique. rewrite HE1. lia. }
  destruct (Day_in_month E) as [HEday HEd].
  rewrite monthLength_eq, HEm in HEd. rewrite HEm in HEday.
  assert (HEdate : getDate E = monthStart (monthIndex t + amount + 1)
                               - monthStart (monthIndex t + amount)) by lia.
  destruct (Z.geb_spec (getDate t) (getDate E)) as [Hge|Hlt].
  - rewrite HEm, HE2. split; [reflexivity|]. split; [lia|reflexivity].
  - unfold setFullYear.
    remember (MakeDate (MakeDay (getFullYear E) (getMonth E) (getDate t))
                       (TimeWithinDay t)) as R eqn:HRdef.
    assert (HR : Day R = monthStart (monthIndex t + amount) + getDate t - 1
                 /\ TimeWithinDay R = TimeWithinDay t).
    { rewrite HRdef.
      destruct (Day_MakeDate (MakeDay (getFullYear E) (getMonth E) (getDate t))
                  (TimeWithinDay t) Ht) as [-> ->].
      split; [|reflexivity]. rewrite MakeDay_monthStart, <- monthIndex_eq, HEm.
      lia. }
    destruct HR as [HR1 HR2]. clear HRdef.
    assert (HRm : monthIndex R = monthIndex t + amount).
    { apply monthIndex_unique. rewrite HR1. lia. }
    destruct (Day_in_month R) as [HRday _]. rewrite HRm in HRday.
    split; [exact HRm|]. split; [lia|exact HR2].
Qed.

(** The number of days that [addMonths] goes back by [k] months lies
    between the lengths of the [k] months before the month of [t] and of
    the [k] months up to it. *)
Lemma addMonths_days_back (t k : Z) :
  0 < k ->
  monthStart (monthIndex t) - monthStart (monthIndex t - k)
  <= Day t - Day (addMonths t (- k))
  <= Z.max (monthStart (monthIndex t) - monthStart (monthIndex t - k))
           (monthStart (monthIndex t + 1) - monthStart (monthIndex t - k + 1)).
Proof.
  intros Hk. destruct (Day_in_month t) as [Hday Hd].
  destruct (addMonths_clamps t (- k)) as (Hm & Hdate & _).
  destruct (Day_in_month (addMonths t (- k))) as [Hday' _].
  rewrite Hm, Hdate in Hday'. rewrite !monthLength_eq in *.
  replace (monthIndex t + - k) with (monthIndex t - k) in * by lia.
  replace (monthIndex t - k + 1) with (monthIndex t - k + 1) by lia.
  lia.
Qed.

(** ** The range on the calendar *)

Lemma rangeStart_cases (today : Z) :
  rangeStart today "1m" = addMonths today (- 1)
  /\ rangeStart today "3m" = addMonths today (- 3)
  /\ rangeStart today "1y" = addMonths today (- 12)
  /\ forall r : string, r ∉ ["1m"; "3m"; "1y"] ->
                        rangeStart today r = today - 7 * msPerDay.
Proof.
  split; [reflexivity|]. split; [reflexivity|]. split; [reflexivity|].
  intros r Hr. unfold rangeStart.
  destruct (String.eqb_spec r "1m") as [->|_]; [set_solver|].
  destruct (String.eqb_spec r "3m") as [->|_]; [set_solver|].
  destruct (String.eqb_spec r "1y") as [->|_]; [set_solver|].
  apply subDays_shift.
Qed.

Lemma rangeStart_supported (today : Z) (r : string) :
  r = "1m" \/ r = "3m" \/ r = "1y" \/ r ∉ ["1m"; "3m"; "1y"].
Proof.
  destruct (String.eqb_spec r "1m"); [tauto|].
  destruct (String.eqb_spec r "3m"); [tauto|].
  destruct (String.eqb_spec r "1y"); [tauto|].
  right; right; right. intros Hr.
  repeat (apply elem_of_cons in Hr as [Hr|Hr]; [contradiction|]).
  by apply elem_of_nil in Hr.
Qed.

(** The number of days from the start of the range to today. *)
Lemma rangeStart_days (today : Z) :
  (forall r : string, r ∉ ["1m"; "3m"; "1y"] ->
                      Day today - Day (rangeStart today r) = 7)
  /\ 28 <= Day today - Day (rangeStart today "1m") <= 31
  /\ 89 <= Day today - Day (rangeStart today "3m") <= 92
  /\ 365 <= Day today - Day (rangeStart today "1y") <= 366.
Proof.
  destruct (rangeStart_cases today) as (-> & -> & -> & Hweek).
  split; [|split; [|split]].
  - intros r Hr. rewrite (Hweek r Hr).
    replace (today - 7 * msPerDay) with (today + (-7) * msPerDay) by lia.
    rewrite Day_shift. lia.
  - pose proof (addMonths_days_back today 1 ltac:(lia)) as H.
    change (Z.opp 1) with (-1) in H.
    pose proof (monthStart_span1 (monthIndex today - 1)) as H1.
    pose proof (monthStart_span1 (monthIndex today - 1 + 1)) as H2.
    replace (monthIndex today - 1 + 1 + 1) with (monthIndex today + 1) in H2 by lia.
    replace (monthIndex today - 1 + 1) with (monthIndex today) in * by lia.
    lia.
  - pose proof (addMonths_days_back today 3 ltac:(lia)) as H.
    change (Z.opp 3) with (-3) in H.
    pose proof (monthStart_span3 (monthIndex today - 3)) as H1.
    pose proof (monthStart_span3 (monthIndex today - 3 + 1)) as H2.
    replace (monthIndex today - 3 + 1 + 3) with (monthIndex today + 1) in H2 by lia.
    replace (monthIndex today - 3 + 3) with (monthIndex today) in * by lia.
    lia.
  - pose proof (addMonths_days_back today 12 ltac:(lia)) as H.
    change (Z.opp 12) with (-12) in H.
    pose proof (monthStart_span12 (monthIndex today - 12)) as H1.
    pose proof (monthStart_span12 (monthIndex today - 12 + 1)) as H2.
    replace (monthIndex today - 12 + 1 + 12) with (monthIndex today + 1) in H2 by lia.
    replace (monthIndex today - 12 + 12) with (monthIndex today) in * by lia.
    lia.
Qed.

(** 368 iterations are enough for the loop, whatever the range. *)
Lemma fuel_368 (w : World) (s : State) (fuel : nat) :
  (368 <= fuel)%nat ->
  (Z.to_nat (Day (clock w) - Day (rangeStart (clock w) (timeRange s))) + 1
   < fuel)%nat.
Proof.
  intros Hfuel. destruct (rangeStart_days (clock w)) as (Hw & Hm & Hq & Hy).
  destruct (rangeStart_supported (clock w) (timeRange s))
    as [-> | [-> | [-> | Hr]]]; [lia..|].
  rewrite (Hw _ Hr). lia.
Qed.



Example march_31_minus_one_month :
  getDate (clock march_31) = 31
  /\ monthLength (monthIndex (clock march_31) - 1) = 29
  /\ format (rangeStart (clock march_31) "1m") = "2024-02-29".
Proof. repeat split; vm_compute; reflexivity. Qed.



(** ** The resolver, once more *)

Lemma cryptoBaseRates_positive (c : string) :
  c ∈ cryptoCurrencies ->
  exists q : Q, index cryptoBaseRates c = Finite q /\ (0 < q)%Q.
Proof.
  revert c. apply crypto_cases; eexists;
    (split; [vm_compute; reflexivity|reflexivity]).
Qed.

Lemma num_div_positive (p q : Q) :
  (0 < p)%Q -> (0 < q)%Q ->
  exists r : Q, num_div (Finite p) (Finite q) = Finite r /\ (0 < r)%Q.
Proof.
  intros Hp Hq. simpl.
  assert (Hz : Qis_zero q = false).
  { apply not_true_is_false. rewrite Qis_zero_spec. lra. }
  rewrite Hz. eexists. split; [reflexivity|].
  rewrite Qred_correct. apply Qlt_shift_div_l; lra.
Qed.

Lemma calculateCryptoRate_positive (from to : string) :
  from ∈ cryptoCurrencies \/ to ∈ cryptoCurrencies ->
  exists q : Q, calculateCryptoRate from to = Finite q /\ (0 < q)%Q.
Proof.
  unfold calculateCryptoRate. intros Hsome.
  destruct (decide (from ∈ cryptoCurrencies)) as [Hf|Hf];
    destruct (decide (to ∈ cryptoCurrencies)) as [Ht|Ht]; [| | |tauto].
  - rewrite (includes_true _ _ Hf), (includes_true _ _ Ht). simpl andb. cbv iota.
    destruct (cryptoBaseRates_positive _ Hf) as (p & -> & Hp).
    destruct (cryptoBaseRates_positive _ Ht) as (q & -> & Hq).
    by apply num_div_positive.
  - rewrite (includes_true _ _ Hf), (includes_false _ _ Ht). simpl andb. cbv iota.
    by apply cryptoBaseRates_positive.
  - rewrite (includes_false _ _ Hf), (includes_true _ _ Ht). simpl andb. cbv iota.
    destruct (cryptoBaseRates_positive _ Ht) as (q & -> & Hq).
    apply (num_div_positive 1 q); [reflexivity|exact Hq].
Qed.

(** X3: [calculateCryptoRate] returns 0 when neither symbol is crypto, and
    a finite number above 0 as soon as one is. *)
Theorem calculateCryptoRate_sign (from to : string) :
  (from ∉ cryptoCurrencies -> to ∉ cryptoCurrencies ->
   calculateCryptoRate from to = Finite 0)
  /\ (from ∈ cryptoCurrencies \/ to ∈ cryptoCurrencies ->
      exists q : Q, calculateCryptoRate from to = Finite q /\ (0 < q)%Q).
Proof.
  split; [|apply calculateCryptoRate_positive].
  intros Hf Ht. unfold calculateCryptoRate.
  by rewrite (includes_false _ _ Hf), (includes_false _ _ Ht).
Qed.

Lemma calculateCryptoRate_sign_witness :
  calculateCryptoRate "USD" "EUR" = Finite 0
  /\ exists q : Q, calculateCryptoRate "USD" "DOGE" = Finite q /\ (0 < q)%Q.
Proof.
  destruct (calculateCryptoRate_sign "USD" "EUR") as [Hnone _].
  destruct (calculateCryptoRate_sign "USD" "DOGE") as [_ Hsome].
  split; [apply Hnone; compute_done|apply Hsome; right; compute_done].
Defined.

(** The resolver either returns a truthy rate or throws. *)
Lemma resolveRate_outcome (w : World) (s : State) :
  (exists resolved : number,
      (resolveRate w s no_effects).2 = Ok resolved /\ truthy resolved = true)
  \/ resolve_fails w s.
Proof.
  unfold resolve_fails.
  destruct (includes cryptoCurrencies (fromCurrency s)
            || includes cryptoCurrencies (toCurrency s)) eqn:Hc.
  - left. rewrite (resolveRate_crypto w s no_effects Hc).
    eexists. split; [reflexivity|].
    destruct (calculateCryptoRate_positive (fromCurrency s) (toCurrency s))
      as (q & -> & Hq).
    { apply orb_true_iff in Hc as [Hc|Hc]; [left|right];
        unfold includes in Hc; by apply bool_decide_eq_true in Hc. }
    simpl. apply negb_true_iff, not_true_is_false. rewrite Qis_zero_spec. lra.
  - apply orb_false_elim in Hc as [Hf Ht]. unfold includes in Hf, Ht.
    apply bool_decide_eq_false in Hf, Ht.
    rewrite (resolveRate_fiat w s no_effects Hf Ht). simpl.
    destruct (fetch w _) as [response|]; [|right; by eexists].
    destruct (ok response); [|right; by eexists].
    destruct (body response) as [|[rates|]]; [right; by eexists| |right; by eexists].
    destruct (truthy (index rates (toCurrency s))) eqn:Htruthy;
      [left; by eexists|right; by eexists].
Qed.



(** ** Runs of the cycle from any effects *)

Lemma fetchExchangeRate_ok (w : World) (fuel : nat) (s : State) (e : Effects)
    (resolved : number) :
  (368 <= fuel)%nat ->
  (resolveRate w s no_effects).2 = Ok resolved ->
  fetchExchangeRate w fuel s (flush e)
  = ({| requests := (requests e ++ requests (resolveRate w s no_effects).1)%list;
        console := console e;
        queue := [setLoading true; setError ""; setExchangeRate resolved;
                  setHistoricalRates (simulate w s (draws e) (seriesDates w s));
                  setLoading false];
        draws := draws e + length (seriesDates w s) |}, Ok tt).
Proof.
  intros Hfuel Hok. unfold fetchExchangeRate, bind, try_catch, call. simpl.
  rewrite resolveRate_frame, Hok. simpl.
  rewrite (fetchHistoricalRates_run w s _ fuel (fuel_368 w s fuel Hfuel)).
  reflexivity.
Qed.

Lemma fetchExchangeRate_throw (w : World) (fuel : nat) (s : State) (e : Effects)
    (x : exn) :
  (resolveRate w s no_effects).2 = Throw x ->
  fetchExchangeRate w fuel s (flush e)
  = ({| requests := (requests e ++ requests (resolveRate w s no_effects).1)%list;
        console := (console e ++ [("Error fetching exchange rate:", x)])%list;
        queue := [setLoading true; setError ""; setError failureMessage;
                  setLoading false];
        draws := draws e |}, Ok tt).
Proof.
  intros Hx. unfold fetchExchangeRate, bind, try_catch, call. simpl.
  rewrite resolveRate_frame, Hx. reflexivity.
Qed.

(** ** What a cycle does and does not do *)







(** X7: the state that a failed cycle commits does not depend on what made
    the resolver throw: a rejected request, an unsuccessful response and a
    missing rate leave the same state. *)
Theorem failures_alike (w1 w2 : World) (fuel1 fuel2 : nat) (s : State) :
  resolve_fails w1 s -> resolve_fails w2 s ->
  after (fetchExchangeRate w1 fuel1) s = after (fetchExchangeRate w2 fuel2) s.
Proof.
  intros [x1 H1] [x2 H2]. unfold after.
  by rewrite (fetchExchangeRate_failure w1 fuel1 s x1 H1),
             (fetchExchangeRate_failure w2 fuel2 s x2 H2).
Qed.

Lemma failures_alike_witness :
  after (fetchExchangeRate (offline 0) 8) (sample_state "USD" "EUR")
  = after (fetchExchangeRate (stub_api false []) 9) (sample_state "USD" "EUR").
Proof.
  apply failures_alike; [by exists TypeError|by exists FetchError].
Defined.

(** ** The base of the series *)

Lemma simulatedRate_zero (v r : Q) :
  simulatedRate (Finite 0) (Finite v) (Finite r) = Finite 0.
Proof.
  unfold simulatedRate, lit. cbn [num_mul num_add num_sub]. reflexivity.
Qed.

(** X8: the series is simulated around the rate stored in the snapshot, not
    around the rate that the cycle has just resolved: from a stored rate of
    zero, as on the first render, every point of the series is zero although
    the rate stored by the cycle is not. *)
Theorem first_series_flat (w : World) (fuel : nat) (s : State)
    (resolved : number) :
  (368 <= fuel)%nat ->
  exchangeRate s = Finite 0 ->
  (resolveRate w s no_effects).2 = Ok resolved ->
  exists s' : State,
    after (fetchExchangeRate w fuel) s = Some s'
    /\ exchangeRate s' = resolved /\ truthy resolved = true
    /\ historicalRates s' <> []
    /\ forall p : HistoricalPoint, p ∈ historicalRates s' -> rate p = Finite 0.
Proof.
  intros Hfuel Hzero Hok. unfold after.
  rewrite (fetchExchangeRate_success w fuel s resolved Hok
             (fuel_368 w s fuel Hfuel)).
  eexists. split; [reflexivity|]. cbn [commit fold_left apply_update queue].
  cbn [exchangeRate historicalRates].
  split; [reflexivity|]. split.
  { destruct (resolveRate_outcome w s) as [(r & Hr & Htruthy)|[x Hx]];
      congruence. }
  split.
  - intros Hnil. apply (f_equal length) in Hnil.
    unfold simulate in Hnil. rewrite length_imap in Hnil.
    unfold seriesDates in Hnil. rewrite length_map, length_seqZ in Hnil.
    pose proof (rangeStart_before (clock w) (timeRange s)) as [Hday _].
    simpl in Hnil. lia.
  - intros p Hp. unfold simulate in Hp.
    apply elem_of_lookup_imap in Hp as (i & d & -> & _). cbn [rate].
    destruct (volatility_cases s) as (v & -> & _). rewrite Hzero.
    apply simulatedRate_zero.
Qed.

Lemma first_series_flat_witness :
  exists s' : State,
    after (fetchExchangeRate (stub_api true [("EUR", Finite (9 # 10))]) 368)
          (initialState false) = Some s'
    /\ exchangeRate s' = Finite (9 # 10) /\ truthy (Finite (9 # 10)) = true
    /\ historicalRates s' <> []
    /\ forall p : HistoricalPoint, p ∈ historicalRates s' -> rate p = Finite 0.
Proof.
  apply (first_series_flat (stub_api true [("EUR", Finite (9 # 10))]) 368
           (initialState false) (Finite (9 # 10))); [lia|reflexivity|reflexivity].
Defined.



(** ** Events *)

Lemma depsChanged_false (s s' : State) :
  fromCurrency s' = fromCurrency s -> toCurrency s' = toCurrency s ->
  timeRange s' = timeRange s -> depsChanged s s' = false.
Proof.
  intros Hf Ht Hr. unfold depsChanged, effectDeps. rewrite Hf, Ht, Hr.
  by rewrite bool_decide_eq_true_2.
Qed.

(** X10: editing the amount or the custom rate, enabling or disabling the
    override and changing the colour mode change that one field only:
    no cycle starts, no request is issued, nothing is logged and no random
    number is drawn. *)
Theorem edits_do_not_resolve (w : World) (fuel : nat) (s : State)
    (e : Effects) (value : string) :
  dispatch w fuel (onAmountChange value) s e
  = Some (apply_update s (setAmount value), flush e)
  /\ dispatch w fuel (onCustomRateChange value) s e
     = Some (apply_update s (setCustomRate value), flush e)
  /\ dispatch w fuel onCustomRateToggle s e
     = Some (apply_update s (setUseCustomRate (negb (useCustomRate s))), flush e)
  /\ dispatch w fuel onDarkModeToggle s e
     = Some (apply_update s (setDarkMode (negb (darkMode s))), flush e).
Proof.
  unfold dispatch, runHandler, onAmountChange, onCustomRateChange,
    onCustomRateToggle, onDarkModeToggle, call, flush, commit.
  cbn [queue fold_left app requests console draws].
  repeat split; rewrite depsChanged_false; reflexivity.
Qed.

(** X11: a swap of a pair of one and the same symbol changes nothing and
    starts no cycle; a swap of two different symbols starts one cycle, on
    the exchanged pair, which stores what the resolver returns for that
    pair. *)
Theorem swap_resolves (w : World) (fuel : nat) (s : State) (e : Effects) :
  (368 <= fuel)%nat ->
  (fromCurrency s = toCurrency s ->
   dispatch w fuel handleSwapCurrencies s e = Some (s, flush e))
  /\ (fromCurrency s <> toCurrency s ->
      exists (s' : State) (e' : Effects),
        dispatch w fuel handleSwapCurrencies s e = Some (s', e')
        /\ runHandler (fetchExchangeRate w fuel) (swapped s) e = Some (s', e')
        /\ fromCurrency s' = toCurrency s /\ toCurrency s' = fromCurrency s
        /\ (forall resolved : number,
               (resolveRate w (swapped s) no_effects).2 = Ok resolved ->
               exchangeRate s' = resolved /\ error s' = "")
        /\ (resolve_fails w (swapped s) ->
            exchangeRate s' = exchangeRate s /\ error s' = failureMessage)).
Proof.
  intros Hfuel. split.
  - intros Hsame. unfold dispatch, runHandler, handleSwapCurrencies, bind, call.
    cbn [queue flush app commit fold_left].
    assert (Hs : apply_update (apply_update s (setFromCurrency (toCurrency s)))
                              (setToCurrency (fromCurrency s)) = s).
    { destruct s; simpl in *; by subst. }
    rewrite Hs, depsChanged_false; reflexivity.
  - intros Hdiff. unfold dispatch.
    assert (Hswap : runHandler handleSwapCurrencies s e = Some (swapped s, flush e))
      by reflexivity.
    rewrite Hswap.
    assert (Hdeps : depsChanged s (swapped s) = true).
    { unfold depsChanged, effectDeps.
      rewrite bool_decide_eq_false_2; [reflexivity|].
      intros Heq. apply Hdiff. unfold swapped in Heq. destruct s; simpl in *.
      congruence. }
    rewrite Hdeps.
    assert (Hflush : forall handler,
               runHandler handler (swapped s) (flush e)
               = runHandler handler (swapped s) e) by reflexivity.
    rewrite Hflush. unfold runHandler.
    destruct (resolveRate_outcome w (swapped s)) as [(resolved & Hok & _)|[x Hx]].
    + rewrite (fetchExchangeRate_ok w fuel (swapped s) e resolved Hfuel Hok).
      do 2 eexists. split; [reflexivity|]. split; [reflexivity|].
      cbn [queue]. unfold swapped. destruct s; simpl.
      split; [reflexivity|]. split; [reflexivity|]. split.
      * intros r Hr. unfold swapped in Hok. simpl in Hok. rewrite Hok in Hr.
        by injection Hr as <-.
      * intros [y Hy]. unfold swapped in Hok. simpl in Hok. rewrite Hok in Hy.
        discriminate Hy.
    + rewrite (fetchExchangeRate_throw w fuel (swapped s) e x Hx).
      do 2 eexists. split; [reflexivity|]. split; [reflexivity|].
      cbn [queue]. unfold swapped. destruct s; simpl.
      split; [reflexivity|]. split; [reflexivity|]. split.
      * intros r Hr. unfold swapped in Hx. simpl in Hx. rewrite Hx in Hr.
        discriminate Hr.
      * intros _. split; reflexivity.
Qed.

Lemma swap_resolves_witness :
  dispatch (offline 0) 368 handleSwapCurrencies (sample_state "USD" "USD") no_effects
  = Some (sample_state "USD" "USD", flush no_effects)
  /\ exists (s' : State) (e' : Effects),
      dispatch (offline 0) 368 handleSwapCurrencies (sample_state "BTC" "ETH")
               no_effects = Some (s', e')
      /\ fromCurrency s' = "ETH" /\ toCurrency s' = "BTC"
      /\ exchangeRate s' = Finite (1 # 15).
Proof.
  split.
  - apply (swap_resolves (offline 0) 368 (sample_state "USD" "USD") no_effects);
      [lia|reflexivity].
  - destruct (swap_resolves (offline 0) 368 (sample_state "BTC" "ETH") no_effects
                ltac:(lia)) as [_ H].
    destruct (H ltac:(discriminate))
      as (s' & e' & Hrun & Hcycle & Hf & Ht & Hok & _).
    exists s', e'. split; [exact Hrun|]. split; [exact Hf|]. split; [exact Ht|].
    apply (Hok (Finite (1 # 15))). reflexivity.
Defined.

(** ** What the page displays *)

Lemma containsString_append (a b p : string) :
  containsString b p = true -> containsString (a ++ b) p = true.
Proof.
  intros H. induction a as [|c a IH]; [exact H|].
  change (String c a ++ b) with (String c (a ++ b)).
  change (startsWith (String c (a ++ b)) p || containsString (a ++ b) p = true).
  rewrite IH. apply orb_true_r.
Qed.

(** X12: the conversion line is the message exactly when the amount parses
    to [NaN] or to zero; any other amount, negative or infinite ones
    included, is displayed as a conversion. *)
Theorem conversion_message_iff (ex : Q -> string) (s : State) :
  conversionLine ex s = "Please enter a valid amount"
  <-> truthy (parseFloat (amount s)) = false.
Proof.
  unfold conversionLine.
  destruct (truthy (parseFloat (amount s))); split; try reflexivity;
    try discriminate.
  intros H. apply (f_equal (fun line => containsString line "=")) in H.
  rewrite containsString_append in H; [discriminate H|].
  apply (containsString_append " "), containsString_append. reflexivity.
Qed.

Example negative_amount_converted (ex : Q -> string) :
  conversionLine ex (amount_state "-5" (Finite (9 # 10))) = "-5 USD = -4.50 EUR"
  /\ conversionLine ex (amount_state "Infinity" (Finite (9 # 10)))
     = "Infinity USD = Infinity EUR".
Proof. split; reflexivity. Qed.

Lemma num_mul_NaN (x : number) : num_mul x NaN = NaN.
Proof. by destruct x. Qed.

(** X13: with the override enabled and a custom rate that does not parse,
    both lines print [NaN] in place of the rate, for every valid amount. *)
Theorem nan_override_displayed (ex : Q -> string) (s : State) :
  useCustomRate s = true -> parseFloat (customRate s) = NaN ->
  unitRateLine ex s
  = "1 " ++ fromCurrency s ++ " = NaN " ++ toCurrency s ++ " (Custom Rate)"
  /\ (truthy (parseFloat (amount s)) = true ->
      conversionLine ex s
      = amount s ++ " " ++ fromCurrency s ++ " = NaN " ++ toCurrency s).
Proof.
  intros Huse Hnan. unfold unitRateLine, conversionLine, effectiveRate.
  rewrite Huse, Hnan. split; [reflexivity|].
  intros ->. rewrite num_mul_NaN. reflexivity.
Qed.

Lemma nan_override_displayed_witness :
  unitRateLine (fun _ => "") (override_state (Finite (9 # 10)) "abc")
  = "1 USD = NaN EUR (Custom Rate)"
  /\ conversionLine (fun _ => "") (override_state (Finite (9 # 10)) "abc")
     = "100 USD = NaN EUR".
Proof.
  destruct (nan_override_displayed (fun _ => "")
              (override_state (Finite (9 # 10)) "abc") eq_refl eq_refl)
    as [Hunit Hline].
  split; [exact Hunit|exact (Hline eq_refl)].
Defined.

(** X14: while the override is enabled a cycle, whether it resolves or
    fails, changes neither the effective rate nor any of the two lines. *)
Theorem override_shields_display (ex : Q -> string) (w : World) (fuel : nat)
    (s : State) :
  (368 <= fuel)%nat -> useCustomRate s = true ->
  exists s' : State,
    after (fetchExchangeRate w fuel) s = Some s'
    /\ effectiveRate s' = effectiveRate s
    /\ conversionLine ex s' = conversionLine ex s
    /\ unitRateLine ex s' = unitRateLine ex s.
Proof.
  intros Hfuel Huse. unfold after.
  destruct (resolveRate_outcome w s) as [(resolved & Hok & _)|[x Hx]].
  - rewrite (fetchExchangeRate_success w fuel s resolved Hok
               (fuel_368 w s fuel Hfuel)).
    eexists. split; [reflexivity|].
    unfold conversionLine, unitRateLine, effectiveRate.
    destruct s; simpl in *; subst. repeat split; reflexivity.
  - rewrite (fetchExchangeRate_failure w fuel s x Hx).
    eexists. split; [reflexivity|].
    unfold conversionLine, unitRateLine, effectiveRate.
    destruct s; simpl in *; subst. repeat split; reflexivity.
Qed.

Lemma override_shields_display_witness :
  exists s' : State,
    after (fetchExchangeRate (stub_api true [("EUR", Finite (11 # 10))]) 368)
          (override_state (Finite (9 # 10)) "1.25") = Some s'
    /\ effectiveRate s' = Finite (5 # 4)
    /\ conversionLine (fun _ => "") s' = "100 USD = 125.00 EUR"
    /\ unitRateLine (fun _ => "") s' = "1 USD = 1.2500 EUR (Custom Rate)".
Proof.
  apply (override_shields_display (fun _ => "")
           (stub_api true [("EUR", Finite (11 # 10))]) 368
           (override_state (Finite (9 # 10)) "1.25")); [lia|reflexivity].
Defined.

(** X15: after a swap whose cycle fails, the unit rate line pairs the
    exchanged symbols with the rate resolved for the pair before the
    swap, beside the error banner. *)
Theorem failed_swap_stale_rate (ex : Q -> string) (w : World) (fuel : nat)
    (s : State) (e : Effects) :
  fromCurrency s <> toCurrency s -> resolve_fails w (swapped s) ->
  exists (s' : State) (e' : Effects),
    dispatch w fuel handleSwapCurrencies s e = Some (s', e')
    /\ errorBanner s' = Some failureMessage
    /\ effectiveRate s' = effectiveRate s
    /\ unitRateLine ex s'
       = "1 " ++ toCurrency s ++ " = " ++ toFixed ex (effectiveRate s) 4
           ++ " " ++ fromCurrency s
           ++ (if useCustomRate s then " (Custom Rate)" else "").
Proof.
  intros Hdiff [x Hx]. unfold dispatch.
  assert (Hswap : runHandler handleSwapCurrencies s e = Some (swapped s, flush e))
    by reflexivity.
  rewrite Hswap.
  assert (Hdeps : depsChanged s (swapped s) = true).
  { unfold depsChanged, effectDeps.
    rewrite bool_decide_eq_false_2; [reflexivity|].
    intros Heq. apply Hdiff. unfold swapped in Heq. destruct s; simpl in *.
    congruence. }
  rewrite Hdeps.
  assert (Hflush : forall handler,
             runHandler handler (swapped s) (flush e)
             = runHandler handler (swapped s) e) by reflexivity.
  rewrite Hflush. unfold runHandler.
  rewrite (fetchExchangeRate_throw w fuel (swapped s) e x Hx).
  do 2 eexists. split; [reflexivity|]. cbn [queue].
  unfold unitRateLine, effectiveRate, swapped. destruct s; simpl.
  repeat split; reflexivity.
Qed.

Lemma failed_swap_stale_rate_witness :
  exists (s' : State) (e' : Effects),
    dispatch (offline 0) 0 handleSwapCurrencies (sample_state "USD" "EUR")
             no_effects = Some (s', e')
    /\ errorBanner s' = Some failureMessage
    /\ effectiveRate s' = Finite (9 # 10)
    /\ unitRateLine (fun _ => "") s' = "1 EUR = 0.9000 USD".
Proof.
  apply (failed_swap_stale_rate (fun _ => "") (offline 0) 0
           (sample_state "USD" "EUR") no_effects);
    [discriminate|by exists TypeError].
Defined.

(** ** The chart *)



(** X17: for the four supported ranges the title of the chart names the
    range that [getDateRange] goes back by; for any other value of the
    range the title says 1-Year while the range goes back 7 days. *)
Theorem chart_title_range (w : World) (s : State) (e : Effects) :
  exists start : Z,
    getDateRange w s e = (e, Ok start)
    /\ (timeRange s = "1w" ->
        chartTitle s = "7-Day Exchange Rate History"
        /\ Day (clock w) - Day start = 7)
    /\ (timeRange s = "1m" ->
        chartTitle s = "1-Month Exchange Rate History"
        /\ 28 <= Day (clock w) - Day start <= 31)
    /\ (timeRange s = "3m" ->
        chartTitle s = "3-Month Exchange Rate History"
        /\ 89 <= Day (clock w) - Day start <= 92)
    /\ (timeRange s = "1y" ->
        chartTitle s = "1-Year Exchange Rate History"
        /\ 365 <= Day (clock w) - Day start <= 366)
    /\ (timeRange s ∉ ["1w"; "1m"; "3m"; "1y"] ->
        chartTitle s = "1-Year Exchange Rate History"
        /\ Day (clock w) - Day start = 7).
Proof.
  exists (rangeStart (clock w) (timeRange s)).
  split; [apply getDateRange_run|].
  destruct (rangeStart_days (clock w)) as (Hw & Hm & Hq & Hy).
  unfold chartTitle.
  split; [|split; [|split; [|split]]].
  - intros ->. split; [reflexivity|]. apply Hw. compute_done.
  - intros ->. split; [reflexivity|exact Hm].
  - intros ->. split; [reflexivity|exact Hq].
  - intros ->. split; [reflexivity|exact Hy].
  - intros Hr. split.
    + destruct (String.eqb_spec (timeRange s) "1w") as [E|_];
        [exfalso; apply Hr; rewrite E; compute_done|].
      destruct (String.eqb_spec (timeRange s) "1m") as [E|_];
        [exfalso; apply Hr; rewrite E; compute_done|].
      destruct (String.eqb_spec (timeRange s) "3m") as [E|_];
        [exfalso; apply Hr; rewrite E; compute_done|].
      reflexivity.
    + apply Hw. intros H. apply Hr. apply elem_of_cons. by right.
Qed.

Lemma chart_title_range_witness :
  exists start : Z,
    getDateRange march_31 (range_state "2w") no_effects = (no_effects, Ok start)
    /\ chartTitle (range_state "2w") = "1-Year Exchange Rate History"
    /\ Day (clock march_31) - Day start = 7.
Proof.
  destruct (chart_title_range march_31 (range_state "2w") no_effects)
    as (start & Hrun & _ & _ & _ & _ & Hother).
  exists start. split; [exact Hrun|]. apply Hother. compute_done.
Defined.

(** ** Selecting a symbol *)




(** The first render on a stubbed rate of 0.9: one request, for USD, and a
    flat series of 8 points. *)
Example mount_example :
  exists (s' : State) (e' : Effects),
    mount (stub_api true [("EUR", Finite (9 # 10))]) 368 false = Some (s', e')
    /\ requests e' = ["https://api.exchangerate-api.com/v4/latest/USD"]
    /\ exchangeRate s' = Finite (9 # 10)
    /\ map rate (historicalRates s') = repeat (Finite 0) 8
    /\ draws e' = 8%nat.
Proof. do 2 eexists. split; [vm_compute; reflexivity|]. repeat split. Qed.
